(** * The article-generation route ([src/app/api/generate/route.ts])

    A shallow embedding of the request handler [POST] and of the three agents
    it sequences ([searcherAgent], [writerAgent], [editorAgent]), followed by
    the properties of the orchestration contract.

    Strings are sequences of UTF-16 code units, as in the source language.
    The two network collaborators (the chat-completion endpoint and the search
    endpoint) are functions of the history of calls made so far; the handler
    runs in a small state-and-exception monad whose state is that history.

    A parsed request body is an arbitrary JSON value.  A parsed search
    response has the shape of the search contract: an optional list of
    results, each with optional string fields.  The line the handler writes
    to the error log is not modelled. *)

From Stdlib Require Import List NArith ZArith QArith Bool Ascii String Lia.
From Stdlib Require DecimalString.
Import ListNotations.

Set Implicit Arguments.
#[local] Set Warnings "-register-all".
Local Open Scope N_scope.

(* ------------------------------------------------------------------ *)
(** ** Strings *)

Definition jsstring := list N.

(** A literal of the source, all of whose characters are ASCII. *)
Definition lit (s : string) : jsstring :=
  map N_of_ascii (list_ascii_of_string s).

(** [Boolean(s)] for a string. *)
Definition truthy (s : jsstring) : bool :=
  match s with [] => false | _ :: _ => true end.

(** [a || b] where [a] is a string that may be undefined or null. *)
Definition or_else (a : option jsstring) (b : jsstring) : jsstring :=
  match a with
  | Some s => if truthy s then s else b
  | None => b
  end.

(** The code units [String.prototype.trim] strips: WhiteSpace and
    LineTerminator of the language definition. *)
Definition is_white_space (c : N) : bool :=
  (c =? 9) || (c =? 10) || (c =? 11) || (c =? 12) || (c =? 13) || (c =? 32)
  || (c =? 160) || (c =? 5760) || ((8192 <=? c) && (c <=? 8202))
  || (c =? 8232) || (c =? 8233) || (c =? 8239) || (c =? 8287)
  || (c =? 12288) || (c =? 65279).

Fixpoint trimStart (s : jsstring) : jsstring :=
  match s with
  | [] => []
  | c :: r => if is_white_space c then trimStart r else s
  end.

Definition trimEnd (s : jsstring) : jsstring := rev (trimStart (rev s)).

Definition trim (s : jsstring) : jsstring := trimEnd (trimStart s).

Definition LF : N := 10.

(** [s.split(sep)] for a separator of one code unit. *)
Fixpoint split (sep : N) (s : jsstring) : list jsstring :=
  match s with
  | [] => [[]]
  | c :: r =>
      if c =? sep then [] :: split sep r
      else match split sep r with
           | [] => [[c]]
           | piece :: pieces => (c :: piece) :: pieces
           end
  end.

(** [xs.join(sep)] for an array of strings. *)
Fixpoint join (sep : jsstring) (xs : list jsstring) : jsstring :=
  match xs with
  | [] => []
  | [x] => x
  | x :: rest => x ++ sep ++ join sep rest
  end.

(** [xs.slice(0, n)] *)
Definition slice0 (A : Type) (n : nat) (xs : list A) : list A := firstn n xs.

(* ------------------------------------------------------------------ *)
(** ** Values parsed from a request body *)

Inductive json : Type :=
| JNull
| JBool (b : bool)
| JNum (n : Q)
| JStr (s : jsstring)
| JArr (items : list json)
| JObj (fields : list (jsstring * json)).

(** A value of the language: [None] is [undefined]. *)
Definition jsvalue := option json.

Definition jsstring_eqb (a b : jsstring) : bool :=
  if list_eq_dec N.eq_dec a b then true else false.

(** Own property of a parsed object; of duplicate keys the last one wins. *)
Fixpoint get_field (key : jsstring) (fields : list (jsstring * json)) : jsvalue :=
  match fields with
  | [] => None
  | (k, v) :: rest =>
      match get_field key rest with
      | Some later => Some later
      | None => if jsstring_eqb k key then Some v else None
      end
  end.

Definition to_boolean (v : jsvalue) : bool :=
  match v with
  | None => false
  | Some JNull => false
  | Some (JBool b) => b
  | Some (JNum n) => negb (Qeq_bool n 0)
  | Some (JStr s) => truthy s
  | Some (JArr _) => true
  | Some (JObj _) => true
  end.

Definition typeof_is_string (v : jsvalue) : bool :=
  match v with Some (JStr _) => true | _ => false end.

Definition string_of (v : jsvalue) : jsstring :=
  match v with Some (JStr s) => s | _ => [] end.

(* ------------------------------------------------------------------ *)
(** ** Completions and the monad of the handler *)

(** What a [throw] carries: an instance of [Error] with its message, or
    any other value. *)
Inductive thrown : Type :=
| JsError (message : jsstring)
| JsOther.

Inductive completion (A : Type) : Type :=
| Normal (a : A)
| Throw (e : thrown).
Arguments Normal {A} a.
Arguments Throw {A} e.

Definition M (S A : Type) : Type := S -> completion A * S.

Definition ret {S A} (a : A) : M S A := fun s => (Normal a, s).

Definition throw {S A} (e : thrown) : M S A := fun s => (Throw e, s).

Definition bind {S A B} (m : M S A) (k : A -> M S B) : M S B :=
  fun s =>
    match m s with
    | (Normal a, s') => k a s'
    | (Throw e, s') => (Throw e, s')
    end.

(** [try { body } catch (e) { handler e }]: the effects of [body] up to the
    throw are kept. *)
Definition try_catch {S A} (body : M S A) (handler : thrown -> M S A) : M S A :=
  fun s =>
    match body s with
    | (Normal a, s') => (Normal a, s')
    | (Throw e, s') => handler e s'
    end.

Declare Scope js_scope.
Delimit Scope js_scope with js.
Notation "x <- m ;; k" := (bind m (fun x => k))
  (at level 61, m at next level, right associativity) : js_scope.
Notation "m ;; k" := (bind m (fun _ => k))
  (at level 61, right associativity) : js_scope.
Local Open Scope js_scope.

(** [for (const x of xs) body] *)
Fixpoint for_of {S A} (xs : list A) (body : A -> M S unit) : M S unit :=
  match xs with
  | [] => ret tt
  | x :: rest => body x ;; for_of rest body
  end.

(* ------------------------------------------------------------------ *)
(** ** The collaborators *)

Inductive role : Type := System | User.

Record chat_request : Type := {
  apiKey : option jsstring;
  model : jsstring;
  messages : list (role * jsstring);
  temperature : Q;
  max_tokens : Z
}.

(** One entry of [organic_results]; each field may be missing. *)
Record organic_result : Type := {
  title : option jsstring;
  snippet : option jsstring;
  link : option jsstring
}.

Record search_data : Type := {
  organic_results : option (list organic_result)
}.

Record fetch_request : Type := {
  url : jsstring;
  searchParams : list (jsstring * jsstring);
  timeout_ms : Z
}.

(** What [fetch] resolves to: the [ok] flag and the outcome of [res.json()]. *)
Record fetch_response : Type := {
  ok : bool;
  json_body : completion search_data
}.

Inductive event : Type :=
| ChatCall (req : chat_request)
| FetchCall (req : fetch_request).

(** The state of a run: the calls made to the collaborators, oldest first. *)
Definition world := list event.

Record process_env : Type := {
  OPENAI_API_KEY : option jsstring;
  SERPAPI_API_KEY : option jsstring
}.

(** Everything outside the module.  [chat_completions] gives the [content] of
    the first choice ([None] when there is no such choice, message or
    content) or the exception of the client; [fetch] rejects on a network
    failure or when the abort signal fires.  Both may depend on the calls
    made before.  [null_destructure_message] is the text of the engine's
    TypeError for destructuring [null]. *)
Record platform : Type := {
  env : process_env;
  chat_completions : world -> chat_request -> completion (option jsstring);
  fetch : world -> fetch_request -> completion fetch_response;
  null_destructure_message : jsstring
}.

Definition create (P : platform) (req : chat_request) : M world (option jsstring) :=
  fun w => (chat_completions P w req, w ++ [ChatCall req]).

Definition await_fetch (P : platform) (req : fetch_request) : M world fetch_response :=
  fun w => (fetch P w req, w ++ [FetchCall req]).

(** Lifting a completion that is already decided ([await res.json()]). *)
Definition await {S A} (c : completion A) : M S A := fun s => (c, s).

(** A block with one local array next to the world. *)
Definition lift {L A} (m : M world A) : M (world * L) A :=
  fun '(w, l) => let '(r, w') := m w in (r, (w', l)).

Definition with_local {L A} (init : L) (m : M (world * L) A) : M world A :=
  fun w => let '(r, (w', _)) := m (w, init) in (r, w').

Definition read {L} : M (world * L) L := fun '(w, l) => (Normal l, (w, l)).

Definition push (s : jsstring) : M (world * list jsstring) unit :=
  fun '(w, l) => (Normal tt, (w, l ++ [s])).

(* ------------------------------------------------------------------ *)
(** ** Client setup *)

(** The client object is opaque; what the module decides is the key it is
    built with. *)
Definition getOpenAIClient (P : platform) : option jsstring :=
  OPENAI_API_KEY (env P).

Definition getSerpApiKey (P : platform) : jsstring :=
  or_else (SERPAPI_API_KEY (env P)) [].

(** [params.set(k, v)] of URLSearchParams: the first entry for [k] is
    replaced and later ones dropped, or a new entry is appended. *)
Fixpoint searchParams_set (k v : jsstring) (ps : list (jsstring * jsstring))
  : list (jsstring * jsstring) :=
  match ps with
  | [] => [(k, v)]
  | (k', v') :: rest =>
      if jsstring_eqb k' k
      then (k, v) :: filter (fun kv => negb (jsstring_eqb (fst kv) k)) rest
      else (k', v') :: searchParams_set k v rest
  end.

(* ------------------------------------------------------------------ *)
(** ** Searcher agent *)

Definition gpt_4o : jsstring := lit "gpt-4o".

Definition searcher_system_prompt : jsstring :=
  lit "You are a research assistant. Given a topic, generate 3 concise and diverse web search queries that would help gather information for writing a news article. Return only the queries, one per line, no numbering.".

Definition searcher_request (P : platform) (topic : jsstring) : chat_request :=
  {| apiKey := getOpenAIClient P;
     model := gpt_4o;
     messages := [ (System, searcher_system_prompt);
                   (User, lit "Topic: " ++ topic) ];
     temperature := (4 # 10)%Q;
     max_tokens := 200%Z |}.

(** Lines 36-41: the text in use and the queries derived from it. *)
Definition queries_of (content : option jsstring) (topic : jsstring) : list jsstring :=
  let queriesText := or_else content topic in
  slice0 3 (filter truthy (map trim (split LF queriesText))).

Definition search_request (P : platform) (query : jsstring) : fetch_request :=
  let params := searchParams_set (lit "q") query [] in
  let params := searchParams_set (lit "api_key") (getSerpApiKey P) params in
  let params := searchParams_set (lit "num") (lit "3") params in
  let params := searchParams_set (lit "engine") (lit "google") params in
  {| url := lit "https://serpapi.com/search.json";
     searchParams := params;
     timeout_ms := 10000%Z |}.

(** Lines 62-68: the text block of one result. *)
Definition snippet_of (result : organic_result) : jsstring :=
  join [LF]
    (filter truthy
       [ or_else (title result) [];
         or_else (snippet result) [];
         match link result with
         | Some l => if truthy l then lit "Source: " ++ l else []
         | None => []
         end ]).

(** Lines 62-69: the body of the loop over the results. *)
Definition collect_result (result : organic_result) : M (world * list jsstring) unit :=
  let snippet := snippet_of result in
  if truthy snippet then push snippet else ret tt.

(** Lines 47-70: the body of the [try] for one query.  [ret tt] in the
    first branch is the [continue]. *)
Definition search_query (P : platform) (query : jsstring)
  : M (world * list jsstring) unit :=
  res <- lift (await_fetch P (search_request P query)) ;;
  if negb (ok res) then ret tt
  else
    data <- await (json_body res) ;;
    let results := match organic_results data with Some rs => rs | None => [] end in
    for_of (slice0 3 results) collect_result.

Definition no_results_snippet (topic : jsstring) : jsstring :=
  lit "No search results were found. Write the article based on your general knowledge of: " ++ topic.

(** Lines 44-83: the loop over the queries and the substitution at its end;
    [allSnippets] is the local array. *)
Definition search_loop (P : platform) (topic : jsstring) (queries : list jsstring)
  : M world (list jsstring) :=
  with_local []
    (for_of queries (fun query =>
       try_catch (search_query P query) (fun _ => ret tt)) ;;
     allSnippets <- read ;;
     (if (List.length allSnippets =? 0)%nat
      then push (no_results_snippet topic)
      else ret tt) ;;
     read).

Definition searcherAgent (P : platform) (topic : jsstring) : M world (list jsstring) :=
  queryResponse <- create P (searcher_request P topic) ;;
  let queries := queries_of queryResponse topic in
  search_loop P topic queries.

(* ------------------------------------------------------------------ *)
(** ** Writer agent *)

Definition writer_system_prompt : jsstring :=
  lit "You are an expert journalist and article writer. Using the research data provided, write a well-structured, factual, and engaging news article.

Requirements:
- Write a compelling headline
- Include a strong lead paragraph
- Organize with clear sections
- Maintain a neutral, professional journalistic tone
- Use facts from the research data where available
- Aim for 600-900 words
- Do not fabricate quotes or statistics not present in the research".

Definition writer_request (P : platform) (topic : jsstring) (researchData : list jsstring)
  : chat_request :=
  let researchContext := join ([LF; LF] ++ lit "---" ++ [LF; LF]) researchData in
  {| apiKey := getOpenAIClient P;
     model := gpt_4o;
     messages := [ (System, writer_system_prompt);
                   (User, lit "Topic: " ++ topic ++ [LF; LF]
                            ++ lit "Research Data:" ++ [LF] ++ researchContext) ];
     temperature := (6 # 10)%Q;
     max_tokens := 2000%Z |}.

Definition writerAgent (P : platform) (topic : jsstring) (researchData : list jsstring)
  : M world jsstring :=
  response <- create P (writer_request P topic researchData) ;;
  ret (or_else response []).

(* ------------------------------------------------------------------ *)
(** ** Editor agent *)

Definition em_dash : N := 8212.

Definition editor_system_prompt : jsstring :=
  lit "You are a senior newspaper editor with decades of experience. Refine the following article draft to meet professional journalism standards.

Your editorial pass should:
- Improve clarity and readability
- Tighten prose and eliminate redundancy
- Ensure a consistent professional tone
- Fix any grammatical or structural issues
- Strengthen the headline and lead
- Ensure smooth paragraph transitions
- Maintain factual accuracy " ++ [em_dash] ++ lit " do not add new information

Return only the final polished article, no commentary.".

Definition editor_request (P : platform) (draft : jsstring) : chat_request :=
  {| apiKey := getOpenAIClient P;
     model := gpt_4o;
     messages := [ (System, editor_system_prompt); (User, draft) ];
     temperature := (3 # 10)%Q;
     max_tokens := 2000%Z |}.

Definition editorAgent (P : platform) (draft : jsstring) : M world jsstring :=
  response <- create P (editor_request P draft) ;;
  ret (or_else response draft).

(* ------------------------------------------------------------------ *)
(** ** Orchestrator *)

(** What [request.json()] settles to. *)
Record NextRequest : Type := {
  request_json : completion json
}.

(** The object handed to [NextResponse.json] and the status. *)
Record NextResponse : Type := {
  body : list (jsstring * jsstring);
  status : Z
}.

Definition NextResponse_json (obj : list (jsstring * jsstring)) (init : option Z)
  : NextResponse :=
  {| body := obj;
     status := match init with Some st => st | None => 200%Z end |}.

(** [const { topic } = body]: a TypeError for [null], the own property of an
    object, [undefined] for every other parsed value. *)
Definition destructure_topic (P : platform) (b : json) : completion jsvalue :=
  match b with
  | JNull => Throw (JsError (null_destructure_message P))
  | JObj fields => Normal (get_field (lit "topic") fields)
  | _ => Normal None
  end.

(** The condition of line 164. *)
Definition topic_rejected (topic : jsvalue) : bool :=
  negb (to_boolean topic)
  || negb (typeof_is_string topic)
  || (List.length (trim (string_of topic)) =? 0)%nat.

(** Lines 178-194: the three steps, for a topic that passed validation. *)
Definition run_agents (P : platform) (topic : jsstring) : M world NextResponse :=
  researchData <- searcherAgent P (trim topic) ;;
  draft <- writerAgent P (trim topic) researchData ;;
  if negb (truthy draft) then
    ret (NextResponse_json [(lit "error", lit "Failed to generate article draft.")] (Some 500%Z))
  else
    article <- editorAgent P draft ;;
    ret (NextResponse_json [(lit "article", article)] None).

(** Lines 161-194: the body of the outer [try]. *)
Definition POST_try (P : platform) (request : NextRequest) : M world NextResponse :=
  body <- await (request_json request) ;;
  topic <- await (destructure_topic P body) ;;
  if topic_rejected topic then
    ret (NextResponse_json [(lit "error", lit "A valid topic is required.")] (Some 400%Z))
  else if negb (truthy (or_else (OPENAI_API_KEY (env P)) [])) then
    ret (NextResponse_json [(lit "error", lit "OpenAI API key is not configured.")] (Some 500%Z))
  else
    run_agents P (string_of topic).

(** Lines 198-199. *)
Definition error_message (error : thrown) : jsstring :=
  match error with
  | JsError message => message
  | JsOther => lit "Internal server error"
  end.

Definition POST (P : platform) (request : NextRequest) : M world NextResponse :=
  try_catch (POST_try P request)
    (fun error =>
       let message := error_message error in
       ret (NextResponse_json [(lit "error", message)] (Some 500%Z))).

(* ------------------------------------------------------------------ *)
(** ** Definitions used to state the properties *)


(** The generative call gave no text, or the empty text: the cases in which
    [||] takes its right operand. *)
Definition nothing_usable (content : option jsstring) : Prop :=
  content = None \/ content = Some [].


(** A field of a result that is there: defined and not the empty string. *)
Definition present (field : option jsstring) : bool :=
  match field with
  | Some (_ :: _) => true
  | _ => false
  end.

Definition field_text (field : option jsstring) : jsstring :=
  match field with Some s => s | None => [] end.

(** The lines of a snippet in the specification's words: the title, the
    snippet text and the labelled link, each only when present. *)
Definition present_lines (result : organic_result) : list jsstring :=
  (if present (title result) then [field_text (title result)] else [])
  ++ (if present (snippet result) then [field_text (snippet result)] else [])
  ++ (if present (link result) then [lit "Source: " ++ field_text (link result)] else []).

(** What one settled search call adds to the research set. *)
Definition snippets_of_outcome (o : completion fetch_response) : list jsstring :=
  match o with
  | Throw _ => []
  | Normal res =>
      if ok res then
        match json_body res with
        | Throw _ => []
        | Normal data =>
            filter truthy
              (map snippet_of
                 (slice0 3 (match organic_results data with
                            | Some rs => rs
                            | None => []
                            end)))
        end
      else []
  end.

(** A search call that fails: [fetch] rejects (network failure, timeout), the
    status is not a success, or the body does not parse. *)
Definition search_fails (o : completion fetch_response) : Prop :=
  match o with
  | Throw _ => True
  | Normal res => ok res = false \/ exists e, json_body res = Throw e
  end.

(** The calls the loop over the queries makes, one per query. *)
Definition fetch_calls (P : platform) (queries : list jsstring) : list event :=
  map (fun q => FetchCall (search_request P q)) queries.

(** The research set gathered over the queries, starting from world [w]. *)
Fixpoint gathered (P : platform) (queries : list jsstring) (w : world) : list jsstring :=
  match queries with
  | [] => []
  | q :: rest =>
      snippets_of_outcome (fetch P w (search_request P q))
      ++ gathered P rest (w ++ [FetchCall (search_request P q)])
  end.

(** The research set the loop hands over: the gathered one, or the
    substitute when nothing was gathered. *)
Definition research_set (P : platform) (topic : jsstring) (queries : list jsstring)
    (w : world) : list jsstring :=
  match gathered P queries w with
  | [] => [no_results_snippet topic]
  | _ :: _ => gathered P queries w
  end.

(** The topic field of a parsed body, in the specification's sense: the
    property of an object, absent from anything else. *)
Definition topic_field (b : json) : jsvalue :=
  match b with
  | JObj fields => get_field (lit "topic") fields
  | _ => None
  end.

(** A topic field that is absent, not a string, or empty after trimming. *)
Inductive topic_unacceptable : jsvalue -> Prop :=
| topic_absent : topic_unacceptable None
| topic_not_string (v : json) :
    (forall s, v <> JStr s) -> topic_unacceptable (Some v)
| topic_blank (s : jsstring) :
    trim s = [] -> topic_unacceptable (Some (JStr s)).

Definition error_response (message : jsstring) (st : Z) : NextResponse :=
  NextResponse_json [(lit "error", message)] (Some st).

Definition article_response (article : jsstring) : NextResponse :=
  NextResponse_json [(lit "article", article)] None.

(** The rejection property as the specification words it, at one run. *)
Definition rejection_as_specified (P : platform) (request : NextRequest) (w : world)
  : Prop :=
  forall b, request_json request = Normal b ->
    topic_unacceptable (topic_field b) ->
    exists r, POST P request w = (Normal r, w) /\ status r = 400%Z.

(** The generative-text credential is configured. *)
Definition configured (P : platform) : Prop :=
  exists key, OPENAI_API_KEY (env P) = Some key /\ key <> [].

(** A request that passes validation, with its raw topic string. *)
Definition valid_request (P : platform) (request : NextRequest) (topic : jsstring)
  : Prop :=
  (exists fields,
      request_json request = Normal (JObj fields)
      /\ get_field (lit "topic") fields = Some (JStr topic))
  /\ trim topic <> []
  /\ configured P.

Definition has_field (key : jsstring) (r : NextResponse) : bool :=
  existsb (fun kv => jsstring_eqb (fst kv) key) (body r).

(** A platform for examples: the chat endpoint answers its n-th call with
    the n-th entry of a script and any later call with [otherwise]; the
    search endpoint always settles the same way. *)
Definition chat_calls_made (w : world) : nat :=
  List.length (filter (fun ev => match ev with ChatCall _ => true | _ => false end) w).

Definition scripted_platform (serp_key : option jsstring)
    (script : list (completion (option jsstring)))
    (otherwise : completion (option jsstring))
    (search : completion fetch_response) : platform :=
  {| env := {| OPENAI_API_KEY := Some (lit "sk-test"); SERPAPI_API_KEY := serp_key |};
     chat_completions := fun w _ => nth (chat_calls_made w) script otherwise;
     fetch := fun _ _ => search;
     null_destructure_message :=
       lit "Cannot destructure property 'topic' of 'body' as it is null." |}.

Definition without_openai_key (P : platform) : platform :=
  {| env := {| OPENAI_API_KEY := None; SERPAPI_API_KEY := SERPAPI_API_KEY (env P) |};
     chat_completions := chat_completions P;
     fetch := fetch P;
     null_destructure_message := null_destructure_message P |}.

Definition request_with_topic (topic : jsstring) : NextRequest :=
  {| request_json := Normal (JObj [(lit "topic", JStr topic)]) |}.

(** The ways a stage of the handler throws: reading the body, destructuring
    it, and the three generative calls.  The last index is the world at the
    throw. *)
Inductive stage_throws (P : platform) (request : NextRequest) (w : world)
  : thrown -> world -> Prop :=
| body_parsing_throws (e : thrown) :
    request_json request = Throw e ->
    stage_throws P request w e w
| destructuring_throws :
    request_json request = Normal JNull ->
    stage_throws P request w (JsError (null_destructure_message P)) w
| planner_throws (topic : jsstring) (e : thrown) :
    valid_request P request topic ->
    chat_completions P w (searcher_request P (trim topic)) = Throw e ->
    stage_throws P request w e
      (w ++ [ChatCall (searcher_request P (trim topic))])
| drafter_throws (topic : jsstring) (researchData : list jsstring) (w1 : world)
    (e : thrown) :
    valid_request P request topic ->
    searcherAgent P (trim topic) w = (Normal researchData, w1) ->
    chat_completions P w1 (writer_request P (trim topic) researchData) = Throw e ->
    stage_throws P request w e
      (w1 ++ [ChatCall (writer_request P (trim topic) researchData)])
| refiner_throws (topic : jsstring) (researchData : list jsstring) (w1 : world)
    (draft : jsstring) (w2 : world) (e : thrown) :
    valid_request P request topic ->
    searcherAgent P (trim topic) w = (Normal researchData, w1) ->
    writerAgent P (trim topic) researchData w1 = (Normal draft, w2) ->
    draft <> [] ->
    chat_completions P w2 (editor_request P draft) = Throw e ->
    stage_throws P request w e (w2 ++ [ChatCall (editor_request P draft)]).

(** Sample search results: a full one, an empty one, one with a title only
    and an empty link, and a fourth one beyond the cap. *)
Definition sample_results : list organic_result :=
  [ {| title := Some (lit "Council vote");
       snippet := Some (lit "Turnout rose.");
       link := Some (lit "https://example.org/a") |};
    {| title := None; snippet := None; link := None |};
    {| title := Some (lit "Ballot count"); snippet := None; link := Some [] |};
    {| title := Some (lit "Fourth"); snippet := Some (lit "Unread."); link := None |} ].

Definition sample_response : fetch_response :=
  {| ok := true;
     json_body := Normal {| organic_results := Some sample_results |} |}.

(** Example platforms: no search key and every search call timing out; a
    search key and every search call answered with the sample results. *)
Definition offline (script : list (completion (option jsstring)))
    (otherwise : completion (option jsstring)) : platform :=
  scripted_platform None script otherwise
    (Throw (JsError (lit "The operation was aborted due to timeout"))).

Definition online (script : list (completion (option jsstring)))
    (otherwise : completion (option jsstring)) : platform :=
  scripted_platform (Some (lit "serp-key")) script otherwise (Normal sample_response).

(* ------------------------------------------------------------------ *)
(** ** The dashboard page ([src/app/dashboard/page.tsx])

    The page keeps six pieces of state and sends the topic to the route.
    The model follows [handleGenerate] up to the settling of its promise and
    the functions that decide how the three pipeline steps are drawn.  The
    two progress timers are part of it: at each [await] inside the [try] the
    browser tells how long the page has been waiting, and the timers that
    are due by then run. *)

Module Dashboard.

Inductive AgentStep : Type := Idle | Searching | Writing | Editing | Done.

Definition AgentStep_eqb (a b : AgentStep) : bool :=
  match a, b with
  | Idle, Idle | Searching, Searching | Writing, Writing
  | Editing, Editing | Done, Done => true
  | _, _ => false
  end.

(** Lines 44-49. *)
Record state : Type := {
  topic : jsstring;
  article : jsvalue;
  loading : bool;
  error : jsstring;
  agentStep : AgentStep;
  copied : bool
}.

Definition initial : state :=
  {| topic := []; article := Some (JStr []); loading := false; error := [];
     agentStep := Idle; copied := false |}.

(** What [fetch] resolves to, as far as the page reads it. *)
Record response : Type := {
  ok : bool;
  status : Z;
  json_body : completion json
}.

(** The browser around the page.  [fetch] is the POST to [/api/generate]
    with the given body; the two times are the milliseconds between the
    start of the timers and the settling of [fetch] and of
    [response.json()]; [null_property_message] is the text of the engine's
    TypeError for reading a property of [null]; [String_of] is the conversion
    to a string of a value that is not one. *)
Record browser : Type := {
  fetch : json -> completion response;
  fetch_elapsed : Z;
  json_elapsed : Z;
  null_property_message : jsstring;
  String_of : json -> jsstring
}.

(** The page while a handler runs: the state and the bodies sent so far. *)
Record page : Type := {
  ui : state;
  sent : list json
}.

Definition update (f : state -> state) : M page unit :=
  fun p => (Normal tt, {| ui := f (ui p); sent := sent p |}).

Definition setArticle (v : jsvalue) : M page unit :=
  update (fun st => {| topic := topic st; article := v; loading := loading st;
                       error := error st; agentStep := agentStep st;
                       copied := copied st |}).

Definition setLoading (b : bool) : M page unit :=
  update (fun st => {| topic := topic st; article := article st; loading := b;
                       error := error st; agentStep := agentStep st;
                       copied := copied st |}).

Definition setError (e : jsstring) : M page unit :=
  update (fun st => {| topic := topic st; article := article st;
                       loading := loading st; error := e;
                       agentStep := agentStep st; copied := copied st |}).

Definition setAgentStep (a : AgentStep) : M page unit :=
  update (fun st => {| topic := topic st; article := article st;
                       loading := loading st; error := error st;
                       agentStep := a; copied := copied st |}).

Definition setCopied (b : bool) : M page unit :=
  update (fun st => {| topic := topic st; article := article st;
                       loading := loading st; error := error st;
                       agentStep := agentStep st; copied := b |}).

(** [try { body } catch (e) { handler e } finally { finalizer }] *)
Definition try_catch_finally {S A} (body : M S A) (handler : thrown -> M S A)
    (finalizer : M S unit) : M S A :=
  fun s =>
    match try_catch body handler s with
    | (r, s') =>
        match finalizer s' with
        | (Normal _, s'') => (r, s'')
        | (Throw e, s'') => (Throw e, s'')
        end
    end.

(** Lines 60-61: the callbacks of the timers that are due after [elapsed]
    milliseconds, in the order of their delays. *)
Definition run_timers (elapsed : Z) : M page unit :=
  (if (8000 <=? elapsed)%Z then setAgentStep Writing else ret tt) ;;
  (if (20000 <=? elapsed)%Z then setAgentStep Editing else ret tt).

(** Lines 64-68: the request, recorded with its body. *)
Definition post_generate (B : browser) (payload : json) : M page response :=
  fun p => (fetch B payload, {| ui := ui p; sent := sent p ++ [payload] |}).

(** The decimal digits of a status code. *)
Definition decimal (n : Z) : jsstring :=
  lit (DecimalString.NilZero.string_of_int (Z.to_int n)).

(** [data?.error] *)
Definition optional_error (data : json) : jsvalue :=
  match data with
  | JObj fields => get_field (lit "error") fields
  | _ => None
  end.

(** The message of [new Error(v)] for a defined [v]. *)
Definition Error_message (B : browser) (v : json) : jsstring :=
  match v with
  | JStr s => s
  | _ => String_of B v
  end.

(** Lines 71-74: the message thrown for a response that is not ok. *)
Definition failure_message (B : browser) (r : response) : jsstring :=
  let data := match json_body r with Normal d => d | Throw _ => JNull end in
  match optional_error data with
  | Some v =>
      if to_boolean (Some v) then Error_message B v
      else lit "Request failed with status " ++ decimal (status r)
  | None => lit "Request failed with status " ++ decimal (status r)
  end.

(** [data.article]: a TypeError for [null], the own property of an object,
    [undefined] for every other parsed value. *)
Definition read_article (B : browser) (data : json) : completion jsvalue :=
  match data with
  | JNull => Throw (JsError (null_property_message B))
  | JObj fields => Normal (get_field (lit "article") fields)
  | _ => Normal None
  end.

(** Lines 51-90. *)
Definition handleGenerate (B : browser) : M page unit :=
  fun p =>
    let topic := topic (ui p) in
    if negb (truthy (trim topic)) then ret tt p
    else
      (setLoading true ;;
       setError [] ;;
       setArticle (Some (JStr [])) ;;
       setCopied false ;;
       setAgentStep Searching ;;
       try_catch_finally
         (response <- post_generate B (JObj [(lit "topic", JStr (trim topic))]) ;;
          run_timers (fetch_elapsed B) ;;
          (if negb (ok response)
           then run_timers (json_elapsed B) ;;
                throw (JsError (failure_message B response))
           else ret tt) ;;
          data <- await (json_body response) ;;
          run_timers (json_elapsed B) ;;
          value <- await (read_article B data) ;;
          setArticle value ;;
          setAgentStep Done)
         (fun err =>
            setError (match err with
                      | JsError message => message
                      | JsOther => lit "An unexpected error occurred."
                      end) ;;
            setAgentStep Idle)
         (setLoading false)) p.

(** Line 159: the button is disabled. *)
Definition button_disabled (st : state) : bool :=
  loading st || negb (truthy (trim (topic st))).

(** Lines 191-200: how a step of the pipeline stands. *)
Definition steps : list AgentStep := [Searching; Writing; Editing].

Fixpoint indexOf (x : AgentStep) (l : list AgentStep) : Z :=
  match l with
  | [] => (-1)%Z
  | y :: rest =>
      if AgentStep_eqb y x then 0%Z
      else let i := indexOf x rest in
           if (i <? 0)%Z then (-1)%Z else (i + 1)%Z
  end.

Definition isActive (agentStep step : AgentStep) : bool :=
  AgentStep_eqb agentStep step.

Definition isComplete (agentStep step : AgentStep) : bool :=
  let currentIdx := indexOf agentStep steps in
  let stepIdx := indexOf step steps in
  AgentStep_eqb agentStep Done || (currentIdx >? stepIdx)%Z.

(** Lines 205-219: the colour of the badge and the icon in it. *)
Inductive colour : Type := Green | Blue | Gray.

Inductive icon : Type := Spinner | CheckMark | StepIcon.

Definition badge_colour (agentStep step : AgentStep) : colour :=
  if isComplete agentStep step then Green
  else if isActive agentStep step then Blue else Gray.

Definition badge_icon (loading : bool) (agentStep step : AgentStep) : icon :=
  if isActive agentStep step && loading then Spinner
  else if isComplete agentStep step then CheckMark else StepIcon.

(** Line 177: the pipeline panel is drawn. *)
Definition pipeline_shown (st : state) : bool :=
  loading st || AgentStep_eqb (agentStep st) Done.

(** The body the page sends for a topic. *)
Definition payload (topic : jsstring) : json :=
  JObj [(lit "topic", JStr (trim topic))].

(** The two ways a run of [handleGenerate] leaves the state, used to state
    its properties: the one of the [catch] block with the message shown,
    and the one of the end of the [try] block with the value stored as
    article. *)
Definition failed (st : state) (message : jsstring) : state :=
  {| topic := topic st; article := Some (JStr []); loading := false;
     error := message; agentStep := Idle; copied := false |}.

Definition succeeded (st : state) (value : jsvalue) : state :=
  {| topic := topic st; article := value; loading := false;
     error := []; agentStep := Done; copied := false |}.

Definition shown_message (e : thrown) : jsstring :=
  match e with
  | JsError message => message
  | JsOther => lit "An unexpected error occurred."
  end.

(** The state after a run, by the outcome of the request. *)
Definition settled (B : browser) (st : state) : state :=
  match fetch B (payload (topic st)) with
  | Throw e => failed st (shown_message e)
  | Normal r =>
      if ok r then
        match json_body r with
        | Throw e => failed st (shown_message e)
        | Normal data =>
            match read_article B data with
            | Throw e => failed st (shown_message e)
            | Normal value => succeeded st value
            end
        end
      else failed st (failure_message B r)
  end.

(** The same browser with other waiting times. *)
Definition with_timing (B : browser) (fetch_ms json_ms : Z) : browser :=
  {| fetch := fetch B;
     fetch_elapsed := fetch_ms;
     json_elapsed := json_ms;
     null_property_message := null_property_message B;
     String_of := String_of B |}.

End Dashboard.

(** The route as the page's [fetch] reaches it over a working connection:
    the body sent is the body read, the status is the one of the response,
    [ok] holds for the statuses 200 to 299, and the response body parses to
    the object handed to [NextResponse.json]. *)
Definition served (P : platform) (w : world) (payload : json)
  : completion Dashboard.response :=
  match fst (POST P {| request_json := Normal payload |} w) with
  | Normal r =>
      Normal {| Dashboard.ok := (200 <=? status r)%Z && (status r <=? 299)%Z;
                Dashboard.status := status r;
                Dashboard.json_body :=
                  Normal (JObj (map (fun kv => (fst kv, JStr (snd kv))) (body r))) |}
  | Throw e => Throw e
  end.

(** The browser [B] with the route behind its [fetch]. *)
Definition connected (B : Dashboard.browser) (P : platform) (w : world)
  : Dashboard.browser :=
  {| Dashboard.fetch := served P w;
     Dashboard.fetch_elapsed := Dashboard.fetch_elapsed B;
     Dashboard.json_elapsed := Dashboard.json_elapsed B;
     Dashboard.null_property_message := Dashboard.null_property_message B;
     Dashboard.String_of := Dashboard.String_of B |}.

(** For examples: a browser without connection, whose conversion to
    strings is that of objects (the examples convert no value), and a page
    on which an earlier run has left an article. *)
Definition unplugged : Dashboard.browser :=
  {| Dashboard.fetch := fun _ => Throw (JsError (lit "Failed to fetch"));
     Dashboard.fetch_elapsed := 9000%Z;
     Dashboard.json_elapsed := 9001%Z;
     Dashboard.null_property_message :=
       lit "Cannot read properties of null (reading 'article')";
     Dashboard.String_of := fun _ => lit "[object Object]" |}.

Definition page_with_topic (topic : jsstring) : Dashboard.page :=
  {| Dashboard.ui :=
       {| Dashboard.topic := topic;
          Dashboard.article := Some (JStr (lit "An earlier article"));
          Dashboard.loading := false;
          Dashboard.error := [];
          Dashboard.agentStep := Dashboard.Done;
          Dashboard.copied := true |};
     Dashboard.sent := [] |}.

(** The search calls recorded in a list of calls. *)
Definition fetch_calls_made (w : world) : nat :=
  List.length (filter (fun ev => match ev with FetchCall _ => true | _ => false end) w).

(* ------------------------------------------------------------------ *)
(** ** Strings: trimming and splitting *)

Unset Implicit Arguments.

Lemma trimStart_decompose (s : jsstring) :
  exists p, s = p ++ trimStart s /\ forallb is_white_space p = true.
Proof.
  induction s as [|c r IH]; simpl.
  - exists []; auto.
  - destruct (is_white_space c) eqn:Hc.
    + destruct IH as [p [Hp Hws]]. exists (c :: p); simpl.
      rewrite Hc, Hws. split; [f_equal; exact Hp | reflexivity].
    + exists []; auto.
Qed.

Lemma trimStart_head (s : jsstring) c r :
  trimStart s = c :: r -> is_white_space c = false.
Proof.
  induction s as [|a s IH]; simpl; [discriminate|].
  destruct (is_white_space a) eqn:Ha; auto.
  intros H; injection H as <- _; exact Ha.
Qed.

Lemma trimStart_fixed c r :
  is_white_space c = false -> trimStart (c :: r) = c :: r.
Proof. intros H; simpl; now rewrite H. Qed.

Lemma trim_as_prefix (s : jsstring) :
  exists p, trimStart s = trim s ++ p.
Proof.
  unfold trim, trimEnd.
  destruct (trimStart_decompose (rev (trimStart s))) as [p [Hp _]].
  exists (rev p).
  rewrite <- rev_app_distr, <- Hp. now rewrite rev_involutive.
Qed.

Lemma trim_head (s : jsstring) c r :
  trim s = c :: r -> is_white_space c = false.
Proof.
  intros H. destruct (trim_as_prefix s) as [p Hp].
  rewrite H in Hp. simpl in Hp. eapply trimStart_head; eauto.
Qed.

Lemma trim_last (s : jsstring) c r :
  rev (trim s) = c :: r -> is_white_space c = false.
Proof.
  unfold trim, trimEnd. rewrite rev_involutive. apply trimStart_head.
Qed.

Lemma trim_idempotent (s : jsstring) : trim (trim s) = trim s.
Proof.
  destruct (trim s) as [|c r] eqn:E; [reflexivity|].
  unfold trim at 1, trimEnd.
  rewrite (trimStart_fixed c r (trim_head s c r E)).
  destruct (rev (c :: r)) as [|d t] eqn:R.
  - apply (f_equal (@rev N)) in R. rewrite rev_involutive in R. exact (eq_sym R).
  - assert (Hd : is_white_space d = false).
    { apply (trim_last s d t). now rewrite E. }
    rewrite (trimStart_fixed d t Hd), <- R. apply rev_involutive.
Qed.







(* ------------------------------------------------------------------ *)
(** ** The query planner (lines 36-41) *)

Lemma truthy_nonempty (s : jsstring) : truthy s = true <-> s <> [].
Proof. destruct s; simpl; split; congruence. Qed.

Lemma slice0_member {A : Type} (n : nat) (xs : list A) (x : A) :
  In x (slice0 n xs) -> In x xs.
Proof.
  unfold slice0. revert xs; induction n as [|n IH]; intros xs; simpl.
  - intros [].
  - destruct xs as [|a xs]; simpl; [intros []|].
    intros [->|H]; [now left | right; auto].
Qed.

Lemma queries_of_member content topic q :
  In q (queries_of content topic) ->
  truthy q = true /\ exists piece,
    In piece (split LF (or_else content topic)) /\ q = trim piece.
Proof.
  unfold queries_of. intros H.
  apply slice0_member in H. apply filter_In in H. destruct H as [H Hq].
  apply in_map_iff in H. destruct H as [piece [<- Hp]].
  split; [exact Hq|]. exists piece; auto.
Qed.

Lemma queries_of_at_most_three content topic :
  (List.length (queries_of content topic) <= 3)%nat.
Proof. unfold queries_of, slice0. apply firstn_le_length. Qed.


Lemma or_else_nothing_usable content topic :
  nothing_usable content -> or_else content topic = topic.
Proof. intros [-> | ->]; reflexivity. Qed.





(* ------------------------------------------------------------------ *)
(** ** The retriever (lines 44-83) *)

Section Retriever.

Variable P : platform.

Lemma snippet_of_lines (r : organic_result) :
  snippet_of r = join [LF] (present_lines r).
Proof.
  destruct r as [[[|t ts]|] [[|s ss]|] [[|l ls]|]]; reflexivity.
Qed.

Lemma snippet_of_missing (r : organic_result) :
  present (title r) = false -> present (snippet r) = false ->
  present (link r) = false -> snippet_of r = [].
Proof.
  destruct r as [[[|t ts]|] [[|s ss]|] [[|l ls]|]]; simpl;
    intros; try discriminate; reflexivity.
Qed.

Lemma collect_result_run (r : organic_result) (w : world) (acc : list jsstring) :
  collect_result r (w, acc)
  = (Normal tt, (w, acc ++ filter truthy [snippet_of r])).
Proof.
  unfold collect_result. simpl.
  destruct (truthy (snippet_of r)); simpl; [reflexivity|].
  now rewrite app_nil_r.
Qed.

Lemma collect_results_run (rs : list organic_result) (w : world) (acc : list jsstring) :
  for_of rs collect_result (w, acc)
  = (Normal tt, (w, acc ++ filter truthy (map snippet_of rs))).
Proof.
  revert acc; induction rs as [|r rs IH]; intros acc; simpl.
  - now rewrite app_nil_r.
  - unfold bind. rewrite collect_result_run, IH. simpl.
    destruct (truthy (snippet_of r)); simpl.
    + now rewrite <- app_assoc.
    + now rewrite app_nil_r.
Qed.

(** One iteration of the loop over the queries: whatever the search call
    does, the iteration ends normally with one call recorded. *)
Lemma guarded_query_run (q : jsstring) (w : world) (acc : list jsstring) :
  try_catch (search_query P q) (fun _ => ret tt) (w, acc)
  = (Normal tt,
     (w ++ [FetchCall (search_request P q)],
      acc ++ snippets_of_outcome (fetch P w (search_request P q)))).
Proof.
  unfold try_catch, search_query, bind, lift, await_fetch, await, ret.
  destruct (fetch P w (search_request P q)) as [res|e]; simpl.
  - destruct (ok res); simpl.
    + destruct (json_body res) as [data|e]; simpl.
      * now rewrite collect_results_run.
      * now rewrite app_nil_r.
    + now rewrite app_nil_r.
  - now rewrite app_nil_r.
Qed.

Lemma queries_loop_run (queries : list jsstring) (w : world) (acc : list jsstring) :
  for_of queries
    (fun query => try_catch (search_query P query) (fun _ => ret tt)) (w, acc)
  = (Normal tt, (w ++ fetch_calls P queries, acc ++ gathered P queries w)).
Proof.
  revert w acc; induction queries as [|q qs IH]; intros w acc; simpl.
  - now rewrite !app_nil_r.
  - unfold bind. rewrite guarded_query_run, IH.
    now rewrite <- !app_assoc.
Qed.

Lemma search_loop_run (topic : jsstring) (queries : list jsstring) (w : world) :
  search_loop P topic queries w
  = (Normal (research_set P topic queries w), w ++ fetch_calls P queries).
Proof.
  unfold search_loop, with_local, bind, research_set.
  rewrite queries_loop_run. simpl.
  destruct (gathered P queries w); reflexivity.
Qed.

Lemma research_set_inhabited (topic : jsstring) (queries : list jsstring) (w : world) :
  (0 < List.length (research_set P topic queries w))%nat.
Proof.
  unfold research_set. destruct (gathered P queries w); simpl; lia.
Qed.

Lemma search_fails_fruitless (o : completion fetch_response) :
  search_fails o -> snippets_of_outcome o = [].
Proof.
  destruct o as [res|e]; simpl; [|reflexivity].
  intros [Hok | [e He]].
  - now rewrite Hok.
  - rewrite He. now destruct (ok res).
Qed.

Lemma gathered_nothing (queries : list jsstring) (w : world) :
  (forall w' q, snippets_of_outcome (fetch P w' (search_request P q)) = []) ->
  gathered P queries w = [].
Proof.
  intros H. revert w; induction queries as [|q qs IH]; intros w; simpl.
  - reflexivity.
  - now rewrite H, IH.
Qed.

Lemma snippets_of_outcome_truthy (o : completion fetch_response) :
  Forall (fun s => truthy s = true) (snippets_of_outcome o).
Proof.
  apply Forall_forall. intros s Hs.
  destruct o as [res|e]; simpl in Hs; [|destruct Hs].
  destruct (ok res); [|destruct Hs].
  destruct (json_body res); [|destruct Hs].
  apply filter_In in Hs. tauto.
Qed.

Lemma gathered_truthy (queries : list jsstring) (w : world) :
  Forall (fun s => truthy s = true) (gathered P queries w).
Proof.
  revert w; induction queries as [|q qs IH]; intros w; simpl.
  - constructor.
  - apply Forall_app. split; [apply snippets_of_outcome_truthy | apply IH].
Qed.

(** C1.  Whatever the search collaborator does at each call (rejecting,
    answering with a non-success status, answering with a body that does
    not parse, or answering with results), the loop over the queries ends
    normally after one call per query, and the retriever returns a
    non-empty research set: the gathered snippets, or the single
    no-results snippet when nothing was gathered, as when every call
    fails. *)
Theorem retriever_never_fails (topic : jsstring) (queries : list jsstring) (w : world) :
  for_of queries
    (fun query => try_catch (search_query P query) (fun _ => ret tt)) (w, [])
  = (Normal tt, (w ++ fetch_calls P queries, gathered P queries w))
  /\ search_loop P topic queries w
     = (Normal (research_set P topic queries w), w ++ fetch_calls P queries)
  /\ (0 < List.length (research_set P topic queries w))%nat
  /\ research_set P topic queries w
     = (if (List.length (gathered P queries w) =? 0)%nat
        then [no_results_snippet topic]
        else gathered P queries w)
  /\ ((forall w' q, search_fails (fetch P w' (search_request P q))) ->
      search_loop P topic queries w
      = (Normal [no_results_snippet topic], w ++ fetch_calls P queries)).
Proof.
  split; [apply (queries_loop_run queries w [])|].
  split; [apply search_loop_run|].
  split; [apply research_set_inhabited|].
  split.
  - unfold research_set. destruct (gathered P queries w); reflexivity.
  - intros Hfail. rewrite search_loop_run. unfold research_set.
    rewrite gathered_nothing; [reflexivity|].
    intros w' q. apply search_fails_fruitless, Hfail.
Qed.

(** C6.  The text block of a result is the line-feed join of its present
    fields (title, snippet text, labelled link), a field being present
    when it is defined and not the empty string; a result with none of
    them present adds nothing to the research set, and no result ever adds
    the empty string; of the results of a query only the first three are
    read. *)
Theorem snippet_extraction (query : jsstring) (w : world) (acc : list jsstring)
    (res : fetch_response) (data : search_data) (r : organic_result) :
  fetch P w (search_request P query) = Normal res ->
  ok res = true ->
  json_body res = Normal data ->
  snippet_of r = join [LF] (present_lines r)
  /\ (present (title r) = false -> present (snippet r) = false ->
      present (link r) = false ->
      collect_result r (w, acc) = (Normal tt, (w, acc)))
  /\ collect_result r (w, acc)
     = (Normal tt,
        (w, acc ++ (if truthy (snippet_of r) then [snippet_of r] else [])))
  /\ exists added,
       search_query P query (w, acc)
       = (Normal tt, (w ++ [FetchCall (search_request P query)], acc ++ added))
       /\ added = filter truthy
                    (map snippet_of
                       (firstn 3 (match organic_results data with
                                  | Some rs => rs
                                  | None => []
                                  end)))
       /\ (List.length added <= 3)%nat
       /\ Forall (fun s => truthy s = true) added.
Proof.
  intros Hfetch Hok Hjson.
  split; [apply snippet_of_lines|].
  split.
  { intros Ht Hs Hl. rewrite collect_result_run.
    rewrite (snippet_of_missing r Ht Hs Hl). simpl. now rewrite app_nil_r. }
  split; [apply collect_result_run|].
  eexists. split; [|split; [reflexivity|split]].
  - unfold search_query, bind, lift, await_fetch, await.
    rewrite Hfetch, Hok. simpl. rewrite Hjson.
    apply collect_results_run.
  - etransitivity; [apply filter_length_le|].
    rewrite length_map. apply firstn_le_length.
  - apply Forall_forall. intros s Hs. apply filter_In in Hs. tauto.
Qed.

End Retriever.

(* ------------------------------------------------------------------ *)
(** ** The retriever on the example platforms *)

Lemma retriever_never_fails_witness :
  search_loop (offline [] (Normal None)) (lit "Local elections") [lit "turnout"; lit "council"] []
  = (Normal [no_results_snippet (lit "Local elections")],
     [] ++ fetch_calls (offline [] (Normal None)) [lit "turnout"; lit "council"]).
Proof.
  apply (retriever_never_fails (offline [] (Normal None)) (lit "Local elections")
           [lit "turnout"; lit "council"] []).
  intros w' q. simpl. exact I.
Defined.

Lemma snippet_extraction_witness :
  collect_result {| title := None; snippet := Some []; link := None |}
    ([], [lit "kept"])
  = (Normal tt, ([], [lit "kept"]))
  /\ exists added,
       search_query (online [] (Normal None)) (lit "turnout") ([], [lit "kept"])
       = (Normal tt,
          ([] ++ [FetchCall (search_request (online [] (Normal None)) (lit "turnout"))],
           [lit "kept"] ++ added))
       /\ (List.length added <= 3)%nat.
Proof.
  destruct (snippet_extraction (online [] (Normal None)) (lit "turnout") [] [lit "kept"] sample_response
              {| organic_results := Some sample_results |}
              {| title := None; snippet := Some []; link := None |}
              eq_refl eq_refl eq_refl)
    as [_ [Hmissing [_ [added [Hrun [_ [Hlen _]]]]]]].
  split.
  - apply Hmissing; reflexivity.
  - exists added. split; [exact Hrun | exact Hlen].
Defined.

Example sample_results_gathered :
  snippets_of_outcome (Normal sample_response)
  = [ lit "Council vote" ++ [LF] ++ lit "Turnout rose." ++ [LF]
        ++ lit "Source: https://example.org/a";
      lit "Ballot count" ].
Proof. reflexivity. Qed.

(* ------------------------------------------------------------------ *)
(** ** The agents as single steps *)

Section Agents.

Variable P : platform.

Lemma searcherAgent_run (topic : jsstring) (w : world) :
  searcherAgent P topic w
  = match chat_completions P w (searcher_request P topic) with
    | Normal content =>
        (Normal (research_set P topic (queries_of content topic)
                   (w ++ [ChatCall (searcher_request P topic)])),
         (w ++ [ChatCall (searcher_request P topic)])
           ++ fetch_calls P (queries_of content topic))
    | Throw e => (Throw e, w ++ [ChatCall (searcher_request P topic)])
    end.
Proof.
  unfold searcherAgent, bind, create.
  destruct (chat_completions P w (searcher_request P topic)) as [content|e].
  - apply search_loop_run.
  - reflexivity.
Qed.

Lemma writerAgent_run (topic : jsstring) (researchData : list jsstring) (w : world) :
  writerAgent P topic researchData w
  = (match chat_completions P w (writer_request P topic researchData) with
     | Normal content => Normal (or_else content [])
     | Throw e => Throw e
     end,
     w ++ [ChatCall (writer_request P topic researchData)]).
Proof.
  unfold writerAgent, bind, create.
  destruct (chat_completions P w (writer_request P topic researchData));
    reflexivity.
Qed.

Lemma editorAgent_run (draft : jsstring) (w : world) :
  editorAgent P draft w
  = (match chat_completions P w (editor_request P draft) with
     | Normal content => Normal (or_else content draft)
     | Throw e => Throw e
     end,
     w ++ [ChatCall (editor_request P draft)]).
Proof.
  unfold editorAgent, bind, create.
  destruct (chat_completions P w (editor_request P draft)); reflexivity.
Qed.

(** The editor's request differs from the other two in its sampling
    temperature already. *)
Lemma editorAgent_fallback (draft : jsstring) (w : world) (content : option jsstring) :
  chat_completions P w (editor_request P draft) = Normal content ->
  nothing_usable content ->
  editorAgent P draft w = (Normal draft, w ++ [ChatCall (editor_request P draft)]).
Proof.
  intros Hchat Hnothing. rewrite editorAgent_run, Hchat.
  now rewrite (or_else_nothing_usable content draft Hnothing).
Qed.

Lemma editor_request_not_searcher (draft topic : jsstring) :
  editor_request P draft <> searcher_request P topic.
Proof.
  intros H. apply (f_equal temperature) in H. discriminate H.
Qed.

Lemma editor_request_not_writer (draft topic : jsstring) (rd : list jsstring) :
  editor_request P draft <> writer_request P topic rd.
Proof.
  intros H. apply (f_equal temperature) in H. discriminate H.
Qed.

Lemma ChatCall_injective (a b : chat_request) : ChatCall a = ChatCall b -> a = b.
Proof. intros H. now inversion H. Qed.

Lemma fetch_calls_no_chat (queries : list jsstring) (req : chat_request) :
  ~ In (ChatCall req) (fetch_calls P queries).
Proof.
  unfold fetch_calls. intros H. apply in_map_iff in H.
  destruct H as [q [Hq _]]. discriminate Hq.
Qed.

Lemma searcherAgent_calls (topic : jsstring) (w : world)
    (r : completion (list jsstring)) (w1 : world) :
  searcherAgent P topic w = (r, w1) ->
  exists calls, w1 = w ++ calls
    /\ forall draft, ~ In (ChatCall (editor_request P draft)) calls.
Proof.
  rewrite searcherAgent_run.
  destruct (chat_completions P w (searcher_request P topic)) as [content|e];
    intros H; injection H as _ <-.
  - exists ([ChatCall (searcher_request P topic)]
              ++ fetch_calls P (queries_of content topic)).
    split; [now rewrite app_assoc|].
    intros draft Hin. apply in_app_or in Hin. destruct Hin as [[Hin|[]]|Hin].
    + apply ChatCall_injective in Hin. symmetry in Hin.
      exact (editor_request_not_searcher draft topic Hin).
    + exact (fetch_calls_no_chat _ _ Hin).
  - exists [ChatCall (searcher_request P topic)]. split; [reflexivity|].
    intros draft [Hin|[]]. apply ChatCall_injective in Hin. symmetry in Hin.
    exact (editor_request_not_searcher draft topic Hin).
Qed.

Lemma searcherAgent_inhabited (topic : jsstring) (w : world)
    (researchData : list jsstring) (w1 : world) :
  searcherAgent P topic w = (Normal researchData, w1) ->
  (0 < List.length researchData)%nat.
Proof.
  rewrite searcherAgent_run.
  destruct (chat_completions P w (searcher_request P topic)) as [content|e];
    intros H; [|discriminate H].
  injection H as <- _. apply research_set_inhabited.
Qed.

End Agents.

(* ------------------------------------------------------------------ *)
(** ** The orchestrator (lines 159-203) *)

Section Orchestrator.

Variable P : platform.

Lemma trim_nil : trim [] = [].
Proof. reflexivity. Qed.

Lemma topic_rejected_string (s : jsstring) :
  topic_rejected (Some (JStr s)) = match trim s with [] => true | _ :: _ => false end.
Proof.
  unfold topic_rejected. simpl.
  destruct s as [|c r]; [reflexivity|]. simpl truthy. simpl negb. simpl orb.
  destruct (trim (c :: r)); reflexivity.
Qed.

Lemma topic_rejected_unacceptable (topic : jsvalue) :
  topic_unacceptable topic -> topic_rejected topic = true.
Proof.
  intros [ | v Hv | s Hs].
  - reflexivity.
  - unfold topic_rejected.
    destruct v; simpl; try apply orb_true_r;
      try (rewrite orb_true_r; reflexivity); try reflexivity.
    exfalso. exact (Hv s eq_refl).
  - rewrite topic_rejected_string, Hs. reflexivity.
Qed.

Lemma destructure_topic_field (b : json) :
  b <> JNull -> destructure_topic P b = Normal (topic_field b).
Proof. intros H. destruct b; try reflexivity. now elim H. Qed.

Lemma POST_body_throws (request : NextRequest) (w : world) (e : thrown) :
  request_json request = Throw e ->
  POST P request w = (Normal (error_response (error_message e) 500%Z), w).
Proof.
  intros H. unfold POST, try_catch, POST_try, bind, await. rewrite H. reflexivity.
Qed.

Lemma POST_null_body (request : NextRequest) (w : world) :
  request_json request = Normal JNull ->
  POST P request w
  = (Normal (error_response (null_destructure_message P) 500%Z), w).
Proof.
  intros H. unfold POST, try_catch, POST_try, bind, await. rewrite H. reflexivity.
Qed.

Lemma POST_try_valid (request : NextRequest) (topic : jsstring) (w : world) :
  valid_request P request topic ->
  POST_try P request w = run_agents P topic w.
Proof.
  intros [[fields [Hbody Hfield]] [Htrim [key [Hkey Hne]]]].
  unfold POST_try, bind, await. rewrite Hbody. simpl.
  rewrite Hfield, topic_rejected_string.
  destruct (trim topic) eqn:E; [congruence|].
  rewrite Hkey. destruct key as [|k ks]; [congruence|]. reflexivity.
Qed.

Lemma POST_valid (request : NextRequest) (topic : jsstring) (w : world) :
  valid_request P request topic ->
  POST P request w
  = try_catch (run_agents P topic)
      (fun error => ret (error_response (error_message error) 500%Z)) w.
Proof.
  intros H. unfold POST, try_catch.
  now rewrite (POST_try_valid request topic w H).
Qed.

(** The credential check: a topic that passes validation, no credential. *)
Lemma POST_unconfigured (request : NextRequest) (w : world)
    (fields : list (jsstring * json)) (topic : jsstring) :
  request_json request = Normal (JObj fields) ->
  get_field (lit "topic") fields = Some (JStr topic) ->
  trim topic <> [] ->
  ~ configured P ->
  POST P request w
  = (Normal (error_response (lit "OpenAI API key is not configured.") 500%Z), w).
Proof.
  intros Hbody Hfield Htrim Hkey.
  unfold POST, try_catch, POST_try, bind, await. rewrite Hbody. simpl.
  rewrite Hfield, topic_rejected_string.
  destruct (trim topic) eqn:E; [congruence|].
  destruct (OPENAI_API_KEY (env P)) as [[|k ks]|] eqn:K; try reflexivity.
  exfalso. apply Hkey. exists (k :: ks). split; [exact K | discriminate].
Qed.

(** Every request falls under one of the five cases of the handler. *)
Lemma request_cases (request : NextRequest) :
  (exists e, request_json request = Throw e)
  \/ request_json request = Normal JNull
  \/ (exists b, request_json request = Normal b /\ b <> JNull
                /\ topic_unacceptable (topic_field b))
  \/ (exists fields topic,
        request_json request = Normal (JObj fields)
        /\ get_field (lit "topic") fields = Some (JStr topic)
        /\ trim topic <> [] /\ ~ configured P)
  \/ (exists topic, valid_request P request topic).
Proof.
  destruct (request_json request) as [b|e] eqn:Hbody; [|left; eauto].
  right.
  assert (Hprim : b <> JNull -> topic_field b = None ->
                  exists b0, Normal b = Normal b0 /\ b0 <> JNull
                             /\ topic_unacceptable (topic_field b0)).
  { intros Hn Hf. exists b. rewrite Hf. repeat split; [exact Hn | constructor]. }
  destruct b as [ | x | n | s | items | fields];
    try (right; left; apply Hprim; [discriminate | reflexivity]).
  - left; reflexivity.
  - right. clear Hprim.
    destruct (get_field (lit "topic") fields) as [v|] eqn:Hfield.
    + assert (Hother : (forall s, v <> JStr s) ->
                       exists b0, Normal (JObj fields) = Normal b0 /\ b0 <> JNull
                                  /\ topic_unacceptable (topic_field b0)).
      { intros Hv. exists (JObj fields). simpl. rewrite Hfield.
        repeat split; [discriminate | now constructor]. }
      destruct v as [ | x | n | s | items | inner];
        try (left; apply Hother; discriminate).
      destruct (trim s) as [|c r] eqn:Htrim.
      * left. exists (JObj fields). simpl. rewrite Hfield.
        repeat split; [discriminate | now constructor].
      * right.
        destruct (OPENAI_API_KEY (env P)) as [[|k ks]|] eqn:K.
        -- left. exists fields, s. repeat split; auto; try congruence.
           intros [key [Hk Hne]]. congruence.
        -- right. exists s. split; [exists fields; auto|].
           split; [congruence|]. exists (k :: ks). split; [exact K | discriminate].
        -- left. exists fields, s. repeat split; auto; try congruence.
           intros [key [Hk Hne]]. congruence.
    + left. exists (JObj fields). simpl. rewrite Hfield.
      repeat split; [discriminate | constructor].
Qed.

(** Every exception that reaches the outer handler is one of a stage. *)
Lemma POST_try_throws (request : NextRequest) (w : world) (e : thrown) (w' : world) :
  POST_try P request w = (Throw e, w') -> stage_throws P request w e w'.
Proof.
  intros Hrun.
  destruct (request_cases request)
    as [[e0 Hbody] | [Hnull | [[b [Hbody [Hn Hbad]]]
       | [[fields [topic [Hbody [Hfield [Htrim Hkey]]]]] | [topic Hvalid]]]]].
  - unfold POST_try, bind, await in Hrun. rewrite Hbody in Hrun.
    injection Hrun as <- <-. now constructor.
  - unfold POST_try, bind, await in Hrun. rewrite Hnull in Hrun. simpl in Hrun.
    injection Hrun as <- <-. now apply destructuring_throws.
  - unfold POST_try, bind, await in Hrun. rewrite Hbody in Hrun.
    rewrite (destructure_topic_field b Hn) in Hrun.
    rewrite (topic_rejected_unacceptable _ Hbad) in Hrun. discriminate Hrun.
  - unfold POST_try, bind, await in Hrun. rewrite Hbody in Hrun. simpl in Hrun.
    rewrite Hfield, topic_rejected_string in Hrun.
    destruct (trim topic) eqn:E; [congruence|].
    destruct (OPENAI_API_KEY (env P)) as [[|k ks]|] eqn:K;
      try discriminate Hrun.
    exfalso. apply Hkey. exists (k :: ks). split; [exact K | discriminate].
  - rewrite (POST_try_valid request topic w Hvalid) in Hrun.
    unfold run_agents, bind in Hrun.
    destruct (searcherAgent P (trim topic) w) as [[rd|e1] w1] eqn:Hsearch.
    + destruct (writerAgent P (trim topic) rd w1) as [[draft|e2] w2] eqn:Hwrite.
      * destruct draft as [|d ds]; [discriminate Hrun|]. simpl in Hrun.
        rewrite editorAgent_run in Hrun.
        destruct (chat_completions P w2 (editor_request P (d :: ds)))
          as [content|e3] eqn:Hedit; [discriminate Hrun|].
        injection Hrun as <- <-.
        now apply (@refiner_throws P request w topic rd w1 (d :: ds) w2 e3).
      * injection Hrun as <- <-.
        rewrite writerAgent_run in Hwrite.
        destruct (chat_completions P w1 (writer_request P (trim topic) rd))
          as [content|e3] eqn:Hdraft; [discriminate Hwrite|].
        injection Hwrite as <- <-.
        now apply (@drafter_throws P request w topic rd w1 e3).
    + injection Hrun as <- <-.
      rewrite searcherAgent_run in Hsearch.
      destruct (chat_completions P w (searcher_request P (trim topic)))
        as [content|e3] eqn:Hplan; [discriminate Hsearch|].
      injection Hsearch as <- <-.
      now apply (@planner_throws P request w topic e3).
Qed.

(** The rejection of line 164 on every parsed body but [null]: when the
    topic field is absent, not a string, or empty after trimming, the
    response is the client error with status 400 and the world is left as
    it was: no collaborator is called. *)
Theorem invalid_topic_rejected (request : NextRequest) (w : world) (b : json) :
  request_json request = Normal b ->
  b <> JNull ->
  topic_unacceptable (topic_field b) ->
  POST P request w
  = (Normal (error_response (lit "A valid topic is required.") 400%Z), w).
Proof.
  intros Hbody Hnull Hbad.
  unfold POST, try_catch, POST_try, bind, await. rewrite Hbody.
  rewrite (destructure_topic_field b Hnull).
  rewrite (topic_rejected_unacceptable _ Hbad). reflexivity.
Qed.

(** C3, at the input the handler misses.  The body [null] has no topic
    field, yet the response to it is not the client error of line 164: the
    destructuring of line 162 throws first, and the outer handler answers
    with the engine's message and status 500.  No collaborator is called. *)
Theorem null_body_misses_rejection (request : NextRequest) (w : world) :
  request_json request = Normal JNull ->
  topic_unacceptable (topic_field JNull)
  /\ POST P request w
     = (Normal (error_response (null_destructure_message P) 500%Z), w)
  /\ status (error_response (null_destructure_message P) 500%Z) <> 400%Z
  /\ error_response (null_destructure_message P) 500%Z
     <> error_response (lit "A valid topic is required.") 400%Z.
Proof.
  intros Hnull. split; [constructor|].
  split; [exact (POST_null_body request w Hnull)|].
  split; intros H; [discriminate H|].
  apply (f_equal status) in H. discriminate H.
Qed.

(** C9.  When reading the body rejects with an error (the body is not
    valid JSON), the response carries that error's message with status
    500, not 400, and no collaborator is called. *)
Theorem malformed_body_is_internal_error (request : NextRequest) (w : world)
    (message : jsstring) :
  request_json request = Throw (JsError message) ->
  POST P request w = (Normal (error_response message 500%Z), w)
  /\ status (error_response message 500%Z) = 500%Z
  /\ status (error_response message 500%Z) <> 400%Z
  /\ body (error_response message 500%Z) = [(lit "error", message)].
Proof.
  intros H. split; [exact (POST_body_throws request w _ H)|].
  split; [reflexivity|]. split; [discriminate | reflexivity].
Qed.

(** C4.  When the drafter returns the empty string, the response is the
    generation failure with status 500, nothing is called after the
    drafter, and no request of the refiner is among the calls of the
    run. *)
Theorem empty_draft_is_failure (request : NextRequest) (topic : jsstring)
    (w : world) (researchData : list jsstring) (w1 w2 : world) :
  valid_request P request topic ->
  searcherAgent P (trim topic) w = (Normal researchData, w1) ->
  writerAgent P (trim topic) researchData w1 = (Normal [], w2) ->
  POST P request w
  = (Normal (error_response (lit "Failed to generate article draft.") 500%Z), w2)
  /\ exists calls, w2 = w ++ calls
       /\ forall draft, ~ In (ChatCall (editor_request P draft)) calls.
Proof.
  intros Hvalid Hsearch Hwrite. split.
  - rewrite (POST_valid request topic w Hvalid).
    unfold try_catch, run_agents, bind. rewrite Hsearch, Hwrite. reflexivity.
  - destruct (searcherAgent_calls P _ _ _ _ Hsearch) as [calls [-> Hcalls]].
    rewrite writerAgent_run in Hwrite. injection Hwrite as _ <-.
    exists (calls ++ [ChatCall (writer_request P (trim topic) researchData)]).
    split; [now rewrite app_assoc|].
    intros draft Hin. apply in_app_or in Hin. destruct Hin as [Hin|[Hin|[]]].
    + exact (Hcalls draft Hin).
    + apply ChatCall_injective in Hin. symmetry in Hin.
      exact (editor_request_not_writer P draft _ _ Hin).
Qed.

(** C5.  For a non-empty draft, when the refiner's generative call gives
    no text or the empty text, [editorAgent] returns the draft itself and
    the response is the success object whose article is that draft. *)
Theorem refiner_falls_back_to_draft (request : NextRequest) (topic : jsstring)
    (w : world) (researchData : list jsstring) (w1 : world) (draft : jsstring)
    (w2 : world) (content : option jsstring) :
  valid_request P request topic ->
  searcherAgent P (trim topic) w = (Normal researchData, w1) ->
  writerAgent P (trim topic) researchData w1 = (Normal draft, w2) ->
  draft <> [] ->
  chat_completions P w2 (editor_request P draft) = Normal content ->
  nothing_usable content ->
  editorAgent P draft w2
  = (Normal draft, w2 ++ [ChatCall (editor_request P draft)])
  /\ POST P request w
     = (Normal (article_response draft), w2 ++ [ChatCall (editor_request P draft)])
  /\ body (article_response draft) = [(lit "article", draft)]
  /\ status (article_response draft) = 200%Z.
Proof.
  intros Hvalid Hsearch Hwrite Hne Hchat Hnothing.
  pose proof (editorAgent_fallback P draft w2 content Hchat Hnothing) as Hedit.
  split; [exact Hedit|]. split; [|split; reflexivity].
  rewrite (POST_valid request topic w Hvalid).
  unfold try_catch, run_agents, bind. rewrite Hsearch, Hwrite.
  apply truthy_nonempty in Hne. rewrite Hne. simpl. rewrite Hedit. reflexivity.
Qed.

(** C7.  An exception of any stage (reading or destructuring the body, the
    planner's, the drafter's or the refiner's generative call) ends the
    run at the outer handler, which answers once, with status 500 and as
    error string the message of the exception when it is an error object
    and the generic text otherwise. *)
Theorem stage_exception_is_reported (request : NextRequest) (w : world)
    (e : thrown) (w' : world) :
  stage_throws P request w e w' ->
  POST P request w
  = (Normal (error_response
               (match e with
                | JsError message => message
                | JsOther => lit "Internal server error"
                end) 500%Z), w').
Proof.
  intros H. destruct H as [e Hbody | Hnull | topic e Hvalid Hchat
                          | topic rd w1 e Hvalid Hsearch Hchat
                          | topic rd w1 draft w2 e Hvalid Hsearch Hwrite Hne Hchat].
  - exact (POST_body_throws request w e Hbody).
  - exact (POST_null_body request w Hnull).
  - rewrite (POST_valid request topic w Hvalid).
    unfold try_catch, run_agents, bind.
    rewrite searcherAgent_run, Hchat. reflexivity.
  - rewrite (POST_valid request topic w Hvalid).
    unfold try_catch, run_agents, bind.
    rewrite Hsearch, writerAgent_run, Hchat. reflexivity.
  - rewrite (POST_valid request topic w Hvalid).
    unfold try_catch, run_agents, bind.
    rewrite Hsearch, Hwrite. apply truthy_nonempty in Hne. rewrite Hne. simpl.
    rewrite editorAgent_run, Hchat. reflexivity.
Qed.

(** C8.  Every run of the handler ends normally with a response whose
    body has exactly one field, and that field is [article] or [error]:
    never both, never neither. *)
Theorem response_has_exactly_one_field (request : NextRequest) (w : world) :
  exists r w',
    POST P request w = (Normal r, w')
    /\ List.length (body r) = 1%nat
    /\ xorb (has_field (lit "article") r) (has_field (lit "error") r) = true.
Proof.
  unfold POST, try_catch, POST_try, bind, await.
  destruct (request_json request) as [b|e];
    [|eexists; eexists; repeat split; reflexivity].
  destruct (destructure_topic P b) as [topic|e];
    [|eexists; eexists; repeat split; reflexivity].
  destruct (topic_rejected topic);
    [eexists; eexists; repeat split; reflexivity|].
  destruct (negb (truthy (or_else (OPENAI_API_KEY (env P)) [])));
    [eexists; eexists; repeat split; reflexivity|].
  unfold run_agents, bind.
  destruct (searcherAgent P (trim (string_of topic)) w) as [[rd|e] w1];
    [|eexists; eexists; repeat split; reflexivity].
  destruct (writerAgent P (trim (string_of topic)) rd w1) as [[draft|e] w2];
    [|eexists; eexists; repeat split; reflexivity].
  destruct (negb (truthy draft));
    [eexists; eexists; repeat split; reflexivity|].
  destruct (editorAgent P draft w2) as [[article|e] w3];
    eexists; eexists; repeat split; reflexivity.
Qed.

Lemma or_else_inhabited (content : option jsstring) (fallback : jsstring) :
  fallback <> [] -> or_else content fallback <> [].
Proof.
  intros H. destruct content as [[|c r]|]; simpl; congruence.
Qed.

Lemma search_request_key (query : jsstring) :
  In (lit "api_key", getSerpApiKey P) (searchParams (search_request P query)).
Proof. right. left. reflexivity. Qed.

(** C10.  With a valid topic and the generative-text credential
    configured, an absent search credential is replaced by the empty
    string in every search request and is no cause of an error response:
    whatever the search calls do, if the generative calls answer and the
    drafter's answer is not empty, the response is a success with a
    non-empty article; and if the search calls add no snippet, the drafter
    is given the no-results snippet alone. *)
Theorem absent_search_key_is_tolerated (request : NextRequest) (topic : jsstring)
    (w : world) :
  valid_request P request topic ->
  SERPAPI_API_KEY (env P) = None ->
  (forall w' req, exists content, chat_completions P w' req = Normal content) ->
  (forall w' rd, exists draft,
      chat_completions P w' (writer_request P (trim topic) rd) = Normal (Some draft)
      /\ draft <> []) ->
  getSerpApiKey P = []
  /\ (forall q, In (lit "api_key", []) (searchParams (search_request P q)))
  /\ exists researchData article w',
       POST P request w = (Normal (article_response article), w')
       /\ article <> []
       /\ status (article_response article) = 200%Z
       /\ In (ChatCall (writer_request P (trim topic) researchData)) w'
       /\ ((forall w0 q,
              snippets_of_outcome (fetch P w0 (search_request P q)) = []) ->
           researchData = [no_results_snippet (trim topic)]).
Proof.
  intros Hvalid Hkey Hchat Hwriter.
  assert (Hserp : getSerpApiKey P = []).
  { unfold getSerpApiKey. rewrite Hkey. reflexivity. }
  split; [exact Hserp|].
  split.
  { intros q. rewrite <- Hserp. apply search_request_key. }
  destruct (Hchat w (searcher_request P (trim topic))) as [content Hplan].
  pose proof (searcherAgent_run P (trim topic) w) as Hsearch.
  rewrite Hplan in Hsearch.
  set (w0 := w ++ [ChatCall (searcher_request P (trim topic))]) in *.
  set (rd := research_set P (trim topic) (queries_of content (trim topic)) w0) in *.
  set (w1 := w0 ++ fetch_calls P (queries_of content (trim topic))) in *.
  destruct (Hwriter w1 rd) as [draft [Hdraft Hne]].
  destruct draft as [|d ds]; [congruence|].
  destruct (Hchat (w1 ++ [ChatCall (writer_request P (trim topic) rd)])
              (editor_request P (d :: ds))) as [edited Hedit].
  exists rd, (or_else edited (d :: ds)),
    ((w1 ++ [ChatCall (writer_request P (trim topic) rd)])
       ++ [ChatCall (editor_request P (d :: ds))]).
  split.
  { rewrite (POST_valid request topic w Hvalid).
    unfold try_catch, run_agents, bind.
    rewrite Hsearch, writerAgent_run, Hdraft. simpl.
    rewrite editorAgent_run, Hedit. reflexivity. }
  split; [now apply or_else_inhabited|].
  split; [reflexivity|].
  split.
  { apply in_or_app. left. apply in_or_app. right. now left. }
  intros Hnone. unfold rd, research_set.
  now rewrite (gathered_nothing P _ w0 Hnone).
Qed.

End Orchestrator.

(* ------------------------------------------------------------------ *)
(** ** Runs on the example platforms *)

Lemma request_with_topic_valid (script : list (completion (option jsstring)))
    (otherwise : completion (option jsstring))
    (search : completion fetch_response) (serp_key : option jsstring)
    (topic : jsstring) :
  trim topic <> [] ->
  valid_request (scripted_platform serp_key script otherwise search)
    (request_with_topic topic) topic.
Proof.
  intros H. split; [|split; [exact H|]].
  - exists [(lit "topic", JStr topic)]. split; reflexivity.
  - exists (lit "sk-test"). split; [reflexivity | discriminate].
Defined.

Lemma invalid_topic_rejected_witness :
  POST (offline [] (Normal None)) (request_with_topic (lit "   ")) []
  = (Normal (error_response (lit "A valid topic is required.") 400%Z), []).
Proof.
  apply (invalid_topic_rejected (offline [] (Normal None))
           (request_with_topic (lit "   ")) []
           (JObj [(lit "topic", JStr (lit "   "))])).
  - reflexivity.
  - discriminate.
  - apply (topic_blank (lit "   ")). reflexivity.
Defined.

(** The rejection as the specification words it does not hold of the
    handler: a body that is [null] has no topic field, and the response to
    it has status 500, from the outer handler. *)
Lemma rejection_as_specified_fails :
  ~ rejection_as_specified (offline [] (Normal None))
      {| request_json := Normal JNull |} [].
Proof.
  intros H. destruct (H JNull eq_refl topic_absent) as [r [Hrun Hstatus]].
  rewrite (POST_null_body (offline [] (Normal None))
             {| request_json := Normal JNull |} [] eq_refl) in Hrun.
  injection Hrun as <-. discriminate Hstatus.
Qed.

Lemma null_body_misses_rejection_witness :
  POST (offline [] (Normal None)) {| request_json := Normal JNull |} []
  = (Normal (error_response
               (lit "Cannot destructure property 'topic' of 'body' as it is null.")
               500%Z), []).
Proof.
  apply (null_body_misses_rejection (offline [] (Normal None))
           {| request_json := Normal JNull |} []).
  reflexivity.
Defined.

Lemma malformed_body_is_internal_error_witness :
  POST (online [] (Normal None))
    {| request_json := Throw (JsError (lit "Unexpected end of JSON input")) |} []
  = (Normal (error_response (lit "Unexpected end of JSON input") 500%Z), []).
Proof.
  apply (malformed_body_is_internal_error (online [] (Normal None))
           {| request_json := Throw (JsError (lit "Unexpected end of JSON input")) |}
           [] (lit "Unexpected end of JSON input")).
  reflexivity.
Defined.

Lemma empty_draft_is_failure_witness :
  exists w2,
    POST (offline [Normal None; Normal (Some [])] (Normal None))
      (request_with_topic (lit " Local elections ")) []
    = (Normal (error_response (lit "Failed to generate article draft.") 500%Z), w2).
Proof.
  eexists.
  refine (proj1 (empty_draft_is_failure
                   (offline [Normal None; Normal (Some [])] (Normal None))
                   (request_with_topic (lit " Local elections "))
                   (lit " Local elections ") []
                   [no_results_snippet (lit "Local elections")] _ _ _ _ _)).
  - apply request_with_topic_valid. vm_compute. discriminate.
  - cbv. reflexivity.
  - cbv. reflexivity.
Defined.

Lemma refiner_falls_back_to_draft_witness :
  exists w3,
    POST (online [Normal (Some (lit "turnout")); Normal (Some (lit "Draft body"));
                  Normal (Some [])] (Normal None))
      (request_with_topic (lit "Local elections")) []
    = (Normal (article_response (lit "Draft body")), w3).
Proof.
  eexists.
  refine (proj1 (proj2 (refiner_falls_back_to_draft
                   (online [Normal (Some (lit "turnout"));
                            Normal (Some (lit "Draft body"));
                            Normal (Some [])] (Normal None))
                   (request_with_topic (lit "Local elections"))
                   (lit "Local elections") []
                   (snippets_of_outcome (Normal sample_response)) _
                   (lit "Draft body") _ (Some []) _ _ _ _ _ _))).
  - apply request_with_topic_valid. vm_compute. discriminate.
  - cbv. reflexivity.
  - cbv. reflexivity.
  - discriminate.
  - cbv. reflexivity.
  - right. reflexivity.
Defined.

Lemma stage_exception_is_reported_witness :
  exists w',
    POST (offline [Normal None; Throw (JsError (lit "Connection error."))]
            (Normal None))
      (request_with_topic (lit "Local elections")) []
    = (Normal (error_response (lit "Connection error.") 500%Z), w').
Proof.
  eexists.
  refine (stage_exception_is_reported
            (offline [Normal None; Throw (JsError (lit "Connection error."))]
               (Normal None))
            (request_with_topic (lit "Local elections")) []
            (JsError (lit "Connection error.")) _ _).
  refine (@drafter_throws _ _ _ (lit "Local elections")
            [no_results_snippet (lit "Local elections")] _ _ _ _ _).
  - apply request_with_topic_valid. vm_compute. discriminate.
  - cbv. reflexivity.
  - cbv. reflexivity.
Defined.

Lemma absent_search_key_is_tolerated_witness :
  exists article w',
    POST (offline [] (Normal (Some (lit "Generated text"))))
      (request_with_topic (lit "Obscure topic X")) []
    = (Normal (article_response article), w')
    /\ article <> []
    /\ In (ChatCall (writer_request (offline [] (Normal (Some (lit "Generated text"))))
                       (lit "Obscure topic X")
                       [no_results_snippet (lit "Obscure topic X")])) w'.
Proof.
  destruct (absent_search_key_is_tolerated
              (offline [] (Normal (Some (lit "Generated text"))))
              (request_with_topic (lit "Obscure topic X"))
              (lit "Obscure topic X") [])
    as [_ [_ [rd [article [w' [Hrun [Hne [_ [Hin Hrd]]]]]]]]].
  - apply request_with_topic_valid. vm_compute. discriminate.
  - reflexivity.
  - intros w' req. exists (Some (lit "Generated text")). simpl.
    now destruct (chat_calls_made w').
  - intros w' rd. exists (lit "Generated text"). split; [|discriminate].
    simpl. now destruct (chat_calls_made w').
  - exists article, w'. split; [exact Hrun|]. split; [exact Hne|].
    rewrite Hrd in Hin; [exact Hin|]. intros w0 q. reflexivity.
Defined.

(** The five end-to-end scenarios. *)

Example scenario_results_for_every_query :
  fst (POST (online [Normal (Some (lit "turnout
council seats
ballot count"));
                     Normal (Some (lit "Draft")); Normal (Some (lit "Final"))]
               (Normal None))
         (request_with_topic (lit "Local elections")) [])
  = Normal (article_response (lit "Final")).
Proof. vm_compute. reflexivity. Qed.

Example scenario_no_results :
  fst (POST (scripted_platform (Some (lit "serp-key"))
               [Normal (Some (lit "x")); Normal (Some (lit "Draft")); Normal None]
               (Normal None)
               (Normal {| ok := true;
                          json_body := Normal {| organic_results := Some [] |} |}))
         (request_with_topic (lit "Obscure topic X")) [])
  = Normal (article_response (lit "Draft")).
Proof. vm_compute. reflexivity. Qed.

Example scenario_empty_topic :
  POST (online [] (Normal None)) (request_with_topic []) []
  = (Normal (error_response (lit "A valid topic is required.") 400%Z), []).
Proof. vm_compute. reflexivity. Qed.

Example scenario_credential_unset :
  POST (without_openai_key (online [] (Normal None)))
    (request_with_topic (lit "Local elections")) []
  = (Normal (error_response (lit "OpenAI API key is not configured.") 500%Z), []).
Proof. vm_compute. reflexivity. Qed.

Example scenario_drafter_throws :
  fst (POST (online [Normal None; Throw (JsError (lit "Connection error."))]
               (Normal None))
         (request_with_topic (lit "Local elections")) [])
  = Normal (error_response (lit "Connection error.") 500%Z).
Proof. vm_compute. reflexivity. Qed.

Example scenario_calls_made :
  List.length
    (snd (POST (online [Normal (Some (lit "turnout
council seats
ballot count
a fourth line"));
                        Normal (Some (lit "Draft")); Normal (Some (lit "Final"))]
                  (Normal None))
            (request_with_topic (lit "Local elections")) []))
  = 6%nat.
Proof. vm_compute. reflexivity. Qed.

(* ------------------------------------------------------------------ *)
(** ** Further properties of the route: calls, shapes, data flow *)

Lemma chat_calls_made_app (a b : world) :
  chat_calls_made (a ++ b) = (chat_calls_made a + chat_calls_made b)%nat.
Proof. unfold chat_calls_made. now rewrite filter_app, length_app. Qed.

Lemma fetch_calls_made_app (a b : world) :
  fetch_calls_made (a ++ b) = (fetch_calls_made a + fetch_calls_made b)%nat.
Proof. unfold fetch_calls_made. now rewrite filter_app, length_app. Qed.

Lemma fetch_calls_counts (P : platform) (queries : list jsstring) :
  chat_calls_made (fetch_calls P queries) = 0%nat
  /\ fetch_calls_made (fetch_calls P queries) = List.length queries.
Proof.
  unfold chat_calls_made, fetch_calls_made, fetch_calls.
  induction queries as [|q qs [IH1 IH2]]; simpl; [auto|].
  split; [exact IH1 | now rewrite IH2].
Qed.

Lemma or_else_truthy (content : option jsstring) (fallback : jsstring) :
  truthy fallback = true -> truthy (or_else content fallback) = true.
Proof. intros H. destruct content as [[|c r]|]; simpl; auto. Qed.

(** The run of the three steps under the outer handler, call by call. *)
Lemma run_agents_calls (P : platform) (topic : jsstring) (w : world) :
  exists r rest,
    try_catch (run_agents P topic)
      (fun error => ret (error_response (error_message error) 500%Z)) w
    = (Normal r, w ++ ChatCall (searcher_request P (trim topic)) :: rest)
    /\ (chat_calls_made rest <= 2)%nat
    /\ (fetch_calls_made rest <= 3)%nat
    /\ ((exists a, r = article_response a /\ truthy a = true)
        \/ exists m, r = error_response m 500%Z).
Proof.
  unfold try_catch, run_agents, bind. rewrite searcherAgent_run.
  destruct (chat_completions P w (searcher_request P (trim topic))) as [content|e].
  2:{ exists (error_response (error_message e) 500%Z), [].
      split; [reflexivity|]. split; [cbv; lia|]. split; [cbv; lia|].
      right. eexists. reflexivity. }
  pose proof (queries_of_at_most_three content (trim topic)) as Hq.
  destruct (fetch_calls_counts P (queries_of content (trim topic))) as [Hc Hf].
  set (qs := fetch_calls P (queries_of content (trim topic))) in *.
  set (rd := research_set P (trim topic) (queries_of content (trim topic)) _).
  rewrite writerAgent_run.
  assert (Hone : forall req,
             (chat_calls_made (qs ++ [ChatCall req]) <= 2)%nat
             /\ (fetch_calls_made (qs ++ [ChatCall req]) <= 3)%nat).
  { intros req. rewrite chat_calls_made_app, fetch_calls_made_app, Hc, Hf.
    change (chat_calls_made [ChatCall req]) with 1%nat.
    change (fetch_calls_made [ChatCall req]) with 0%nat. lia. }
  assert (Htwo : forall req1 req2,
             (chat_calls_made (qs ++ [ChatCall req1; ChatCall req2]) <= 2)%nat
             /\ (fetch_calls_made (qs ++ [ChatCall req1; ChatCall req2]) <= 3)%nat).
  { intros req1 req2. rewrite chat_calls_made_app, fetch_calls_made_app, Hc, Hf.
    change (chat_calls_made [ChatCall req1; ChatCall req2]) with 2%nat.
    change (fetch_calls_made [ChatCall req1; ChatCall req2]) with 0%nat. lia. }
  destruct (chat_completions P _ (writer_request P (trim topic) rd)) as [c|e].
  2:{ exists (error_response (error_message e) 500%Z),
        (qs ++ [ChatCall (writer_request P (trim topic) rd)]).
      split; [simpl; now rewrite <- !app_assoc|].
      split; [apply Hone|]. split; [apply Hone|].
      right. eexists. reflexivity. }
  destruct (or_else c []) as [|d ds] eqn:Hdraft.
  { exists (error_response (lit "Failed to generate article draft.") 500%Z),
      (qs ++ [ChatCall (writer_request P (trim topic) rd)]).
    split; [simpl; now rewrite <- !app_assoc|].
    split; [apply Hone|]. split; [apply Hone|].
    right. eexists. reflexivity. }
  change (negb (truthy (d :: ds))) with false. cbv beta iota.
  rewrite editorAgent_run.
  destruct (chat_completions P _ (editor_request P (d :: ds))) as [edited|e].
  - exists (article_response (or_else edited (d :: ds))),
      (qs ++ [ChatCall (writer_request P (trim topic) rd);
              ChatCall (editor_request P (d :: ds))]).
    split; [simpl; now rewrite <- !app_assoc|].
    split; [apply Htwo|]. split; [apply Htwo|].
    left. eexists. split; [reflexivity|]. now apply or_else_truthy.
  - exists (error_response (error_message e) 500%Z),
      (qs ++ [ChatCall (writer_request P (trim topic) rd);
              ChatCall (editor_request P (d :: ds))]).
    split; [simpl; now rewrite <- !app_assoc|].
    split; [apply Htwo|]. split; [apply Htwo|].
    right. eexists. reflexivity.
Qed.

(** The run of the handler in each of the five cases of a request. *)
Lemma POST_cases (P : platform) (request : NextRequest) (w : world) :
  (exists m st, POST P request w = (Normal (error_response m st), w)
                /\ ((st = 400%Z /\ m = lit "A valid topic is required.")
                    \/ st = 500%Z))
  \/ exists topic r rest,
       valid_request P request topic
       /\ POST P request w
          = (Normal r, w ++ ChatCall (searcher_request P (trim topic)) :: rest)
       /\ (chat_calls_made rest <= 2)%nat
       /\ (fetch_calls_made rest <= 3)%nat
       /\ ((exists a, r = article_response a /\ truthy a = true)
           \/ exists m, r = error_response m 500%Z).
Proof.
  destruct (request_cases P request)
    as [[e Hbody] | [Hnull | [[b [Hbody [Hn Hbad]]]
       | [[fields [topic [Hbody [Hfield [Htrim Hkey]]]]] | [topic Hvalid]]]]].
  - left. exists (error_message e), 500%Z.
    split; [exact (POST_body_throws P request w e Hbody) | now right].
  - left. exists (null_destructure_message P), 500%Z.
    split; [exact (POST_null_body P request w Hnull) | now right].
  - left. exists (lit "A valid topic is required."), 400%Z. split; [|now left].
    unfold POST, try_catch, POST_try, bind, await. rewrite Hbody.
    rewrite (destructure_topic_field P b Hn).
    now rewrite (topic_rejected_unacceptable _ Hbad).
  - left. exists (lit "OpenAI API key is not configured."), 500%Z.
    split; [|now right].
    exact (POST_unconfigured P request w fields topic Hbody Hfield Htrim Hkey).
  - right. destruct (run_agents_calls P topic w) as [r [rest [Hrun H]]].
    exists topic, r, rest. split; [exact Hvalid|].
    split; [|exact H]. now rewrite (POST_valid P request topic w Hvalid).
Qed.

(** X1.  A request whose topic passes validation, on a platform whose
    generative-text credential is unset or the empty string, is answered
    with the misconfiguration error and status 500, and no collaborator is
    called. *)
Theorem missing_credential_is_misconfiguration (P : platform) (request : NextRequest)
    (w : world) (fields : list (jsstring * json)) (topic : jsstring) :
  request_json request = Normal (JObj fields) ->
  get_field (lit "topic") fields = Some (JStr topic) ->
  trim topic <> [] ->
  OPENAI_API_KEY (env P) = None \/ OPENAI_API_KEY (env P) = Some [] ->
  POST P request w
  = (Normal (error_response (lit "OpenAI API key is not configured.") 500%Z), w).
Proof.
  intros Hbody Hfield Htrim Hkey.
  apply (POST_unconfigured P request w fields topic Hbody Hfield Htrim).
  intros [key [Hk Hne]]. destruct Hkey as [Hkey|Hkey]; congruence.
Qed.

Lemma missing_credential_is_misconfiguration_witness :
  POST (without_openai_key (online [] (Normal None)))
    (request_with_topic (lit "Local elections")) []
  = (Normal (error_response (lit "OpenAI API key is not configured.") 500%Z),
     []).
Proof.
  apply (missing_credential_is_misconfiguration
           (without_openai_key (online [] (Normal None)))
           (request_with_topic (lit "Local elections")) []
           [(lit "topic", JStr (lit "Local elections"))] (lit "Local elections")).
  - reflexivity.
  - reflexivity.
  - vm_compute. discriminate.
  - left. reflexivity.
Defined.

(** X2.  Whatever the request and the collaborators do, a run of the
    handler adds to the calls made at most three generative calls and at
    most three search calls. *)
Theorem call_budget (P : platform) (request : NextRequest) (w : world) :
  exists calls,
    snd (POST P request w) = w ++ calls
    /\ (chat_calls_made calls <= 3)%nat
    /\ (fetch_calls_made calls <= 3)%nat.
Proof.
  destruct (POST_cases P request w)
    as [[m [st [Hrun _]]] | [topic [r [rest [_ [Hrun [Hc [Hf _]]]]]]]].
  - exists []. rewrite Hrun. simpl. rewrite app_nil_r.
    split; [reflexivity|]. split; cbv; lia.
  - exists (ChatCall (searcher_request P (trim topic)) :: rest).
    rewrite Hrun. split; [reflexivity|].
    change (ChatCall (searcher_request P (trim topic)) :: rest)
      with ([ChatCall (searcher_request P (trim topic))] ++ rest).
    rewrite chat_calls_made_app, fetch_calls_made_app.
    change (chat_calls_made [ChatCall (searcher_request P (trim topic))]) with 1%nat.
    change (fetch_calls_made [ChatCall (searcher_request P (trim topic))]) with 0%nat.
    lia.
Qed.

(** X3.  A run of the handler that calls a collaborator at all is the run
    of a request that passed validation with the credential configured, and
    its first call is the planner's generative call for the trimmed topic. *)
Theorem calls_only_after_validation (P : platform) (request : NextRequest)
    (w : world) :
  snd (POST P request w) <> w ->
  exists topic rest,
    valid_request P request topic
    /\ snd (POST P request w)
       = w ++ ChatCall (searcher_request P (trim topic)) :: rest.
Proof.
  intros Hcalls.
  destruct (POST_cases P request w)
    as [[m [st [Hrun _]]] | [topic [r [rest [Hvalid [Hrun _]]]]]].
  - rewrite Hrun in Hcalls. now elim Hcalls.
  - exists topic, rest. split; [exact Hvalid|]. now rewrite Hrun.
Qed.

Lemma calls_only_after_validation_witness :
  exists topic rest,
    valid_request (offline [] (Normal None))
      (request_with_topic (lit " Local elections ")) topic
    /\ snd (POST (offline [] (Normal None))
              (request_with_topic (lit " Local elections ")) [])
       = [] ++ ChatCall (searcher_request (offline [] (Normal None)) (trim topic))
                 :: rest.
Proof.
  apply (calls_only_after_validation (offline [] (Normal None))
           (request_with_topic (lit " Local elections ")) []).
  vm_compute. discriminate.
Defined.

(** X4.  Every response of the handler has one of three shapes: the
    success object with a non-empty article and status 200, the validation
    error with status 400, or an error with status 500. *)
Theorem response_shapes (P : platform) (request : NextRequest) (w : world) :
  exists r w',
    POST P request w = (Normal r, w')
    /\ ((exists a, r = article_response a /\ truthy a = true
                   /\ status r = 200%Z)
        \/ r = error_response (lit "A valid topic is required.") 400%Z
        \/ exists m, r = error_response m 500%Z).
Proof.
  destruct (POST_cases P request w)
    as [[m [st [Hrun Hst]]] | [topic [r [rest [_ [Hrun [_ [_ Hshape]]]]]]]].
  - eexists; eexists. split; [exact Hrun|].
    destruct Hst as [[-> ->] | ->].
    + right; left. reflexivity.
    + right; right. eexists. reflexivity.
  - eexists; eexists. split; [exact Hrun|].
    destruct Hshape as [[a [-> Ha]] | [m ->]].
    + left. exists a. repeat split. exact Ha.
    + right; right. eexists. reflexivity.
Qed.

(** X5.  The handler depends on the topic string only through its trimmed
    form: two bodies whose topic strings trim to the same text get the same
    response and cause the same calls. *)
Theorem topic_whitespace_is_irrelevant (P : platform) (w : world)
    (fields1 fields2 : list (jsstring * json)) (topic1 topic2 : jsstring) :
  get_field (lit "topic") fields1 = Some (JStr topic1) ->
  get_field (lit "topic") fields2 = Some (JStr topic2) ->
  trim topic1 = trim topic2 ->
  POST P {| request_json := Normal (JObj fields1) |} w
  = POST P {| request_json := Normal (JObj fields2) |} w.
Proof.
  intros H1 H2 Htrim.
  unfold POST, try_catch, POST_try, bind, await. simpl.
  rewrite H1, H2, !topic_rejected_string, Htrim.
  destruct (trim topic2) as [|c r] eqn:E; [reflexivity|].
  destruct (negb (truthy (or_else (OPENAI_API_KEY (env P)) []))); [reflexivity|].
  unfold run_agents. simpl string_of. rewrite Htrim, E. reflexivity.
Qed.

Lemma topic_whitespace_is_irrelevant_witness :
  POST (online [] (Normal (Some (lit "text"))))
    (request_with_topic (lit "  Local elections
")) []
  = POST (online [] (Normal (Some (lit "text"))))
      (request_with_topic (lit "Local elections")) [].
Proof.
  apply (topic_whitespace_is_irrelevant (online [] (Normal (Some (lit "text")))) []
           [(lit "topic", JStr (lit "  Local elections
"))]
           [(lit "topic", JStr (lit "Local elections"))]
           (lit "  Local elections
") (lit "Local elections")).
  - reflexivity.
  - reflexivity.
  - reflexivity.
Defined.

Lemma snippets_of_outcome_at_most_three (o : completion fetch_response) :
  (List.length (snippets_of_outcome o) <= 3)%nat.
Proof.
  destruct o as [res|e]; [|simpl; lia].
  unfold snippets_of_outcome.
  destruct (ok res); [|simpl; lia].
  destruct (json_body res) as [data|e]; [|simpl; lia].
  etransitivity; [apply filter_length_le|].
  rewrite length_map. unfold slice0. apply firstn_le_length.
Qed.

Lemma gathered_at_most (P : platform) (queries : list jsstring) (w : world) :
  (List.length (gathered P queries w) <= 3 * List.length queries)%nat.
Proof.
  revert w; induction queries as [|q qs IH]; intros w; simpl; [lia|].
  rewrite length_app.
  pose proof (snippets_of_outcome_at_most_three (fetch P w (search_request P q))).
  specialize (IH (w ++ [FetchCall (search_request P q)])). lia.
Qed.

Lemma join_truthy (sep : jsstring) (xs : list jsstring) :
  xs <> [] -> Forall (fun s => truthy s = true) xs -> truthy (join sep xs) = true.
Proof.
  destruct xs as [|x rest]; [congruence|]. intros _ H.
  inversion H as [|? ? Hx _]; subst.
  destruct x as [|c r]; [discriminate Hx|].
  destruct rest; reflexivity.
Qed.

(** X6.  The research set the searcher hands to the writer has between one
    and nine snippets, none of them empty, so that the research context the
    writer joins from it is never empty. *)
Theorem research_set_bounds (P : platform) (topic : jsstring) (w : world)
    (researchData : list jsstring) (w1 : world) :
  searcherAgent P topic w = (Normal researchData, w1) ->
  (1 <= List.length researchData <= 9)%nat
  /\ Forall (fun s => truthy s = true) researchData
  /\ truthy (join ([LF; LF] ++ lit "---" ++ [LF; LF]) researchData) = true.
Proof.
  rewrite searcherAgent_run.
  destruct (chat_completions P w (searcher_request P topic)) as [content|e];
    intros H; [|discriminate H].
  injection H as <- _.
  set (w0 := w ++ [ChatCall (searcher_request P topic)]).
  pose proof (gathered_at_most P (queries_of content topic) w0) as Hlen.
  pose proof (queries_of_at_most_three content topic) as Hq.
  pose proof (gathered_truthy P (queries_of content topic) w0) as Hall.
  assert (Hrs : (1 <= List.length (research_set P topic (queries_of content topic) w0) <= 9)%nat
                /\ Forall (fun s => truthy s = true)
                     (research_set P topic (queries_of content topic) w0)).
  { unfold research_set.
    destruct (gathered P (queries_of content topic) w0) as [|s rest].
    - split; [simpl; lia|]. constructor; [reflexivity | constructor].
    - split; [simpl in *; lia | exact Hall]. }
  destruct Hrs as [Hbounds Htruthy].
  split; [exact Hbounds|]. split; [exact Htruthy|].
  apply join_truthy; [|exact Htruthy].
  intros E. rewrite E in Hbounds. simpl in Hbounds. lia.
Qed.

Lemma research_set_bounds_witness :
  (1 <= List.length (snippets_of_outcome (Normal sample_response)) <= 9)%nat.
Proof.
  refine (proj1 (research_set_bounds
                   (online [Normal (Some (lit "turnout"))] (Normal None))
                   (lit "Local elections") []
                   (snippets_of_outcome (Normal sample_response)) _ _)).
  cbv. reflexivity.
Defined.

Lemma In_trimStart_inv c (s : jsstring) : In c (trimStart s) -> In c s.
Proof.
  induction s as [|a s IH]; simpl; [tauto|].
  destruct (is_white_space a); [intros H; right; auto | tauto].
Qed.

Lemma In_trim_inv c (s : jsstring) : In c (trim s) -> In c s.
Proof.
  unfold trim, trimEnd. intros H.
  apply in_rev in H. apply In_trimStart_inv in H.
  apply in_rev in H. now apply In_trimStart_inv in H.
Qed.

Lemma split_piece_free sep (s piece : jsstring) :
  In piece (split sep s) -> ~ In sep piece.
Proof.
  revert piece; induction s as [|c r IH]; simpl; intros piece.
  - intros [<-|[]]. tauto.
  - destruct (N.eqb_spec c sep) as [->|Hne].
    + intros [<-|H]; [tauto | now apply IH].
    + destruct (split sep r) as [|p ps].
      * intros [<-|[]]. intros [E|[]]. congruence.
      * intros [<-|H].
        -- intros [E|Hin]; [congruence|]. apply (IH p); [now left | exact Hin].
        -- apply IH. now right.
Qed.

(** X7.  Every planned query is a single line without surrounding white
    space: trimming leaves it as it is, it has no line feed, and it is not
    empty. *)
Theorem queries_are_trimmed_lines (content : option jsstring) (topic : jsstring) :
  Forall (fun q => trim q = q
                   /\ forallb (fun c => negb (c =? LF)) q = true
                   /\ truthy q = true)
    (queries_of content topic).
Proof.
  apply Forall_forall. intros q Hq.
  apply queries_of_member in Hq. destruct Hq as [Htruthy [piece [Hpiece ->]]].
  split; [apply trim_idempotent|]. split; [|exact Htruthy].
  apply forallb_forall. intros c Hc. apply negb_true_iff.
  apply N.eqb_neq. intros ->.
  apply (split_piece_free LF _ piece Hpiece). now apply In_trim_inv.
Qed.

Lemma gathered_history_free (P : platform) (queries : list jsstring) (w : world) :
  (forall w1 w2 req, fetch P w1 req = fetch P w2 req) ->
  gathered P queries w
  = flat_map (fun q => snippets_of_outcome (fetch P [] (search_request P q))) queries.
Proof.
  intros Hfree. revert w; induction queries as [|q qs IH]; intros w; simpl.
  - reflexivity.
  - now rewrite IH, (Hfree w []).
Qed.

(** X8.  When the search collaborator answers a request the same way
    whatever was called before, a query whose call fails is as good as not
    planned: the research set is the one of the other queries. *)
Theorem failed_query_is_skipped (P : platform) (topic : jsstring)
    (before after : list jsstring) (query : jsstring) (w : world) :
  (forall w1 w2 req, fetch P w1 req = fetch P w2 req) ->
  search_fails (fetch P w (search_request P query)) ->
  fst (search_loop P topic (before ++ query :: after) w)
  = fst (search_loop P topic (before ++ after) w).
Proof.
  intros Hfree Hfail. rewrite !search_loop_run. simpl. unfold research_set.
  rewrite !(gathered_history_free P _ w Hfree), !flat_map_app. simpl.
  rewrite <- (Hfree w []), (search_fails_fruitless _ Hfail). reflexivity.
Qed.

Lemma failed_query_is_skipped_witness :
  fst (search_loop (offline [] (Normal None)) (lit "Local elections")
         ([lit "turnout"] ++ lit "council" :: [lit "ballots"]) [])
  = fst (search_loop (offline [] (Normal None)) (lit "Local elections")
           ([lit "turnout"] ++ [lit "ballots"]) []).
Proof.
  apply (failed_query_is_skipped (offline [] (Normal None)) (lit "Local elections")
           [lit "turnout"] [lit "ballots"] (lit "council") []).
  - intros w1 w2 req. reflexivity.
  - simpl. exact I.
Defined.

(** X9.  On a run in which the three generative calls answer and the draft
    is not empty, the writer is given the topic and the research set of the
    searcher, the editor is given the draft of the writer, nothing else is
    called after the searcher, and the article is the editor's text, or
    the draft when the editor gives no text. *)
Theorem successful_run (P : platform) (request : NextRequest) (topic : jsstring)
    (w : world) (researchData : list jsstring) (w1 : world) (draft : jsstring)
    (w2 : world) (content : option jsstring) :
  valid_request P request topic ->
  searcherAgent P (trim topic) w = (Normal researchData, w1) ->
  writerAgent P (trim topic) researchData w1 = (Normal draft, w2) ->
  draft <> [] ->
  chat_completions P w2 (editor_request P draft) = Normal content ->
  POST P request w
  = (Normal (article_response (or_else content draft)),
     w1 ++ [ChatCall (writer_request P (trim topic) researchData);
            ChatCall (editor_request P draft)]).
Proof.
  intros Hvalid Hsearch Hwrite Hne Hedit.
  rewrite (POST_valid P request topic w Hvalid).
  unfold try_catch, run_agents, bind. rewrite Hsearch, Hwrite.
  apply truthy_nonempty in Hne. rewrite Hne. simpl.
  rewrite editorAgent_run, Hedit.
  rewrite writerAgent_run in Hwrite. injection Hwrite as _ <-.
  now rewrite <- app_assoc.
Qed.

Lemma successful_run_witness :
  exists w',
    POST (online [Normal (Some (lit "turnout")); Normal (Some (lit "Draft body"));
                  Normal (Some (lit "Final text"))] (Normal None))
      (request_with_topic (lit "Local elections")) []
    = (Normal (article_response (lit "Final text")), w').
Proof.
  eexists.
  refine (successful_run
            (online [Normal (Some (lit "turnout")); Normal (Some (lit "Draft body"));
                     Normal (Some (lit "Final text"))] (Normal None))
            (request_with_topic (lit "Local elections"))
            (lit "Local elections") []
            (snippets_of_outcome (Normal sample_response)) _
            (lit "Draft body") _ (Some (lit "Final text")) _ _ _ _ _).
  - apply request_with_topic_valid. vm_compute. discriminate.
  - cbv. reflexivity.
  - cbv. reflexivity.
  - discriminate.
  - cbv. reflexivity.
Defined.

(* ------------------------------------------------------------------ *)
(** ** The dashboard page: one run of [handleGenerate] *)

Lemma handleGenerate_blank (B : Dashboard.browser) (p : Dashboard.page) :
  truthy (trim (Dashboard.topic (Dashboard.ui p))) = false ->
  Dashboard.handleGenerate B p = (Normal tt, p).
Proof.
  intros H. unfold Dashboard.handleGenerate. rewrite H. reflexivity.
Qed.

Lemma run_timers_step (elapsed : Z) (st : Dashboard.state) (sent : list json) :
  exists a,
    Dashboard.run_timers elapsed {| Dashboard.ui := st; Dashboard.sent := sent |}
    = (Normal tt,
       {| Dashboard.ui :=
            {| Dashboard.topic := Dashboard.topic st;
               Dashboard.article := Dashboard.article st;
               Dashboard.loading := Dashboard.loading st;
               Dashboard.error := Dashboard.error st;
               Dashboard.agentStep := a;
               Dashboard.copied := Dashboard.copied st |};
          Dashboard.sent := sent |}).
Proof.
  destruct st as [t a l e s c].
  unfold Dashboard.run_timers, bind, Dashboard.setAgentStep, Dashboard.update, ret.
  destruct (8000 <=? elapsed)%Z, (20000 <=? elapsed)%Z; eexists; reflexivity.
Qed.

Lemma handleGenerate_run (B : Dashboard.browser) (p : Dashboard.page) :
  truthy (trim (Dashboard.topic (Dashboard.ui p))) = true ->
  Dashboard.handleGenerate B p
  = (Normal tt,
     {| Dashboard.ui := Dashboard.settled B (Dashboard.ui p);
        Dashboard.sent :=
          Dashboard.sent p ++ [Dashboard.payload (Dashboard.topic (Dashboard.ui p))] |}).
Proof.
  intros H. unfold Dashboard.handleGenerate. rewrite H.
  destruct p as [st sent]. cbn [Dashboard.ui Dashboard.sent negb].
  unfold Dashboard.settled, Dashboard.payload, Dashboard.shown_message,
    Dashboard.failed, Dashboard.succeeded.
  set (generic := lit "An unexpected error occurred.").
  set (body := JObj [(lit "topic", JStr (trim (Dashboard.topic st)))]).
  clearbody generic body.
  unfold Dashboard.try_catch_finally, try_catch.
  unfold bind at 1 2 3 4 5.
  unfold Dashboard.setLoading, Dashboard.setError, Dashboard.setArticle,
    Dashboard.setCopied, Dashboard.setAgentStep, Dashboard.update.
  cbn [Dashboard.ui Dashboard.sent Dashboard.topic Dashboard.article
       Dashboard.loading Dashboard.error Dashboard.agentStep Dashboard.copied].
  unfold bind at 1. unfold Dashboard.post_generate at 1.
  cbn [Dashboard.ui Dashboard.sent].
  destruct (Dashboard.fetch B body) as [r|e].
  2:{ unfold bind, ret. cbn [Dashboard.ui Dashboard.sent Dashboard.topic
        Dashboard.article Dashboard.loading Dashboard.error Dashboard.agentStep
        Dashboard.copied]. destruct e; reflexivity. }
  unfold bind at 1.
  destruct (run_timers_step (Dashboard.fetch_elapsed B)
              {| Dashboard.topic := Dashboard.topic st;
                 Dashboard.article := Some (JStr []);
                 Dashboard.loading := true;
                 Dashboard.error := [];
                 Dashboard.agentStep := Dashboard.Searching;
                 Dashboard.copied := false |} (sent ++ [body])) as [a1 Ha1].
  cbn [Dashboard.topic Dashboard.article Dashboard.loading Dashboard.error
       Dashboard.agentStep Dashboard.copied] in Ha1.
  rewrite Ha1. clear Ha1.
  unfold bind at 1.
  destruct (Dashboard.ok r).
  - cbn [negb]. unfold ret at 1. unfold bind at 1. unfold await at 1.
    destruct (Dashboard.json_body r) as [data|e].
    2:{ unfold bind, ret. cbn [Dashboard.ui Dashboard.sent Dashboard.topic
          Dashboard.article Dashboard.loading Dashboard.error Dashboard.agentStep
          Dashboard.copied]. destruct e; reflexivity. }
    unfold bind at 1.
    match goal with
    | |- context [Dashboard.run_timers ?t {| Dashboard.ui := ?s; Dashboard.sent := ?l |}] =>
        destruct (run_timers_step t s l) as [a2 Ha2]
    end.
    cbn [Dashboard.topic Dashboard.article Dashboard.loading Dashboard.error
         Dashboard.agentStep Dashboard.copied] in Ha2.
    rewrite Ha2. clear Ha2.
    unfold bind at 1. unfold await at 1.
    destruct (Dashboard.read_article B data) as [value|e].
    2:{ unfold bind, ret. cbn [Dashboard.ui Dashboard.sent Dashboard.topic
          Dashboard.article Dashboard.loading Dashboard.error Dashboard.agentStep
          Dashboard.copied]. destruct e; reflexivity. }
    unfold bind, ret. reflexivity.
  - cbn [negb]. unfold bind at 1.
    match goal with
    | |- context [Dashboard.run_timers ?t {| Dashboard.ui := ?s; Dashboard.sent := ?l |}] =>
        destruct (run_timers_step t s l) as [a2 Ha2]
    end.
    cbn [Dashboard.topic Dashboard.article Dashboard.loading Dashboard.error
         Dashboard.agentStep Dashboard.copied] in Ha2.
    rewrite Ha2. clear Ha2.
    unfold throw, bind, ret. reflexivity.
Qed.

(** X10.  A run of [handleGenerate] never throws, keeps the topic, and
    sends one request carrying the trimmed topic when the topic has a
    character that is not white space; for a blank topic it sends nothing
    and leaves the state as it is. *)
Theorem handleGenerate_request (B : Dashboard.browser) (p : Dashboard.page) :
  exists st',
    Dashboard.handleGenerate B p
    = (Normal tt,
       {| Dashboard.ui := st';
          Dashboard.sent :=
            Dashboard.sent p
            ++ (if truthy (trim (Dashboard.topic (Dashboard.ui p)))
                then [JObj [(lit "topic",
                             JStr (trim (Dashboard.topic (Dashboard.ui p))))]]
                else []) |})
    /\ Dashboard.topic st' = Dashboard.topic (Dashboard.ui p)
    /\ st' = (if truthy (trim (Dashboard.topic (Dashboard.ui p)))
              then Dashboard.settled B (Dashboard.ui p)
              else Dashboard.ui p).
Proof.
  destruct (truthy (trim (Dashboard.topic (Dashboard.ui p)))) eqn:H.
  - exists (Dashboard.settled B (Dashboard.ui p)).
    split; [exact (handleGenerate_run B p H)|]. split; [|reflexivity].
    unfold Dashboard.settled.
    destruct (Dashboard.fetch B _) as [r|e]; [|reflexivity].
    destruct (Dashboard.ok r); [|reflexivity].
    destruct (Dashboard.json_body r) as [data|e]; [|reflexivity].
    destruct (Dashboard.read_article B data); reflexivity.
  - exists (Dashboard.ui p). rewrite app_nil_r.
    split; [|split; reflexivity].
    rewrite (handleGenerate_blank B p H). now destruct p.
Qed.

(** X11.  After a run for a topic that is not blank the page is no longer
    loading, and it is in one of two states: done, with no error and the
    article read from an ok response, or idle, with the article cleared.
    An article and an error are never shown together, and an article of an
    earlier run does not survive a failure. *)
Theorem handleGenerate_settles (B : Dashboard.browser) (p : Dashboard.page) :
  truthy (trim (Dashboard.topic (Dashboard.ui p))) = true ->
  exists p',
    Dashboard.handleGenerate B p = (Normal tt, p')
    /\ Dashboard.loading (Dashboard.ui p') = false
    /\ Dashboard.copied (Dashboard.ui p') = false
    /\ ((Dashboard.agentStep (Dashboard.ui p') = Dashboard.Done
         /\ Dashboard.error (Dashboard.ui p') = []
         /\ exists r data,
              Dashboard.fetch B (Dashboard.payload (Dashboard.topic (Dashboard.ui p)))
              = Normal r
              /\ Dashboard.ok r = true
              /\ Dashboard.json_body r = Normal data
              /\ Dashboard.read_article B data
                 = Normal (Dashboard.article (Dashboard.ui p')))
        \/ (Dashboard.agentStep (Dashboard.ui p') = Dashboard.Idle
            /\ Dashboard.article (Dashboard.ui p') = Some (JStr []))).
Proof.
  intros H. eexists. split; [exact (handleGenerate_run B p H)|].
  cbn [Dashboard.ui]. unfold Dashboard.settled.
  destruct (Dashboard.fetch B _) as [r|e] eqn:Hfetch;
    [|repeat split; right; split; reflexivity].
  destruct (Dashboard.ok r) eqn:Hok;
    [|repeat split; right; split; reflexivity].
  destruct (Dashboard.json_body r) as [data|e] eqn:Hjson;
    [|repeat split; right; split; reflexivity].
  destruct (Dashboard.read_article B data) as [value|e] eqn:Hread;
    [|repeat split; right; split; reflexivity].
  split; [reflexivity|]. split; [reflexivity|]. left.
  split; [reflexivity|]. split; [reflexivity|].
  exists r, data. repeat split; assumption.
Qed.

(** X12.  A response that is not ok leaves the page idle with an error
    message: the [error] string of the response body when the body is an
    object with a non-empty one, and otherwise (no such field, an empty
    one, or a body that does not parse) the text that ends in the status
    code. *)
Theorem not_ok_response_is_reported (B : Dashboard.browser) (p : Dashboard.page)
    (r : Dashboard.response) :
  truthy (trim (Dashboard.topic (Dashboard.ui p))) = true ->
  Dashboard.fetch B (Dashboard.payload (Dashboard.topic (Dashboard.ui p))) = Normal r ->
  Dashboard.ok r = false ->
  exists p',
    Dashboard.handleGenerate B p = (Normal tt, p')
    /\ Dashboard.agentStep (Dashboard.ui p') = Dashboard.Idle
    /\ Dashboard.article (Dashboard.ui p') = Some (JStr [])
    /\ (forall fields message,
           Dashboard.json_body r = Normal (JObj fields) ->
           get_field (lit "error") fields = Some (JStr message) ->
           message <> [] ->
           Dashboard.error (Dashboard.ui p') = message)
    /\ (forall fields,
           Dashboard.json_body r = Normal (JObj fields) ->
           get_field (lit "error") fields = None
           \/ get_field (lit "error") fields = Some (JStr []) ->
           Dashboard.error (Dashboard.ui p')
           = lit "Request failed with status " ++ Dashboard.decimal (Dashboard.status r))
    /\ (forall e,
           Dashboard.json_body r = Throw e ->
           Dashboard.error (Dashboard.ui p')
           = lit "Request failed with status " ++ Dashboard.decimal (Dashboard.status r)).
Proof.
  intros H Hfetch Hok. eexists. split; [exact (handleGenerate_run B p H)|].
  cbn [Dashboard.ui]. unfold Dashboard.settled. rewrite Hfetch, Hok.
  split; [reflexivity|]. split; [reflexivity|].
  cbn [Dashboard.error Dashboard.failed]. unfold Dashboard.failure_message.
  split; [|split].
  - intros fields message Hjson Hfield Hne. rewrite Hjson. simpl.
    rewrite Hfield. destruct message; [congruence | reflexivity].
  - intros fields Hjson [Hfield|Hfield]; rewrite Hjson; simpl;
      rewrite Hfield; reflexivity.
  - intros e Hjson. rewrite Hjson. reflexivity.
Qed.

(** X13.  When the request itself fails (the fetch rejects, the body of an
    ok response does not parse, or it parses to [null]) the page ends idle
    and shows the message of the error, or the generic text when what was
    thrown is not an error object. *)
Theorem failed_request_is_reported (B : Dashboard.browser) (p : Dashboard.page)
    (e : thrown) :
  truthy (trim (Dashboard.topic (Dashboard.ui p))) = true ->
  Dashboard.fetch B (Dashboard.payload (Dashboard.topic (Dashboard.ui p))) = Throw e
  \/ (exists r,
        Dashboard.fetch B (Dashboard.payload (Dashboard.topic (Dashboard.ui p)))
        = Normal r
        /\ Dashboard.ok r = true
        /\ (Dashboard.json_body r = Throw e
            \/ (Dashboard.json_body r = Normal JNull
                /\ e = JsError (Dashboard.null_property_message B)))) ->
  exists p',
    Dashboard.handleGenerate B p = (Normal tt, p')
    /\ Dashboard.agentStep (Dashboard.ui p') = Dashboard.Idle
    /\ Dashboard.error (Dashboard.ui p')
       = match e with
         | JsError message => message
         | JsOther => lit "An unexpected error occurred."
         end.
Proof.
  intros H Hcase. eexists. split; [exact (handleGenerate_run B p H)|].
  cbn [Dashboard.ui]. unfold Dashboard.settled.
  destruct Hcase as [Hfetch | [r [Hfetch [Hok [Hjson | [Hjson ->]]]]]].
  - rewrite Hfetch. split; reflexivity.
  - rewrite Hfetch, Hok, Hjson. split; reflexivity.
  - rewrite Hfetch, Hok, Hjson. split; reflexivity.
Qed.

(** X14.  The two progress timers leave no trace: the outcome of a run is
    the same whatever the waiting times, that is, whichever of the timers
    ran before the request settled. *)
Theorem progress_timers_leave_no_trace (B : Dashboard.browser)
    (fetch_ms json_ms : Z) (p : Dashboard.page) :
  Dashboard.handleGenerate (Dashboard.with_timing B fetch_ms json_ms) p
  = Dashboard.handleGenerate B p.
Proof.
  destruct (truthy (trim (Dashboard.topic (Dashboard.ui p)))) eqn:H.
  - rewrite !handleGenerate_run by exact H. reflexivity.
  - rewrite !handleGenerate_blank by exact H. reflexivity.
Qed.

Lemma handleGenerate_settles_witness :
  exists p',
    Dashboard.handleGenerate
      (connected unplugged
         (online [Normal (Some (lit "turnout")); Normal (Some (lit "Draft"));
                  Normal (Some (lit "Final"))] (Normal None)) [])
      (page_with_topic (lit " Local elections ")) = (Normal tt, p')
    /\ Dashboard.loading (Dashboard.ui p') = false.
Proof.
  destruct (handleGenerate_settles
              (connected unplugged
                 (online [Normal (Some (lit "turnout")); Normal (Some (lit "Draft"));
                          Normal (Some (lit "Final"))] (Normal None)) [])
              (page_with_topic (lit " Local elections ")))
    as [p' [Hrun [Hloading _]]].
  - reflexivity.
  - exists p'. split; [exact Hrun | exact Hloading].
Defined.

Lemma not_ok_response_is_reported_witness :
  exists p',
    Dashboard.handleGenerate
      (connected unplugged
         (online [Throw (JsError (lit "Connection error."))] (Normal None)) [])
      (page_with_topic (lit "Local elections")) = (Normal tt, p')
    /\ Dashboard.error (Dashboard.ui p') = lit "Connection error.".
Proof.
  destruct (not_ok_response_is_reported
              (connected unplugged
                 (online [Throw (JsError (lit "Connection error."))] (Normal None))
                 [])
              (page_with_topic (lit "Local elections"))
              {| Dashboard.ok := false;
                 Dashboard.status := 500%Z;
                 Dashboard.json_body :=
                   Normal (JObj [(lit "error", JStr (lit "Connection error."))]) |})
    as [p' [Hrun [_ [_ [Hmessage _]]]]].
  - reflexivity.
  - vm_compute. reflexivity.
  - reflexivity.
  - exists p'. split; [exact Hrun|].
    apply (Hmessage [(lit "error", JStr (lit "Connection error."))]).
    + reflexivity.
    + reflexivity.
    + discriminate.
Defined.

Lemma failed_request_is_reported_witness :
  exists p',
    Dashboard.handleGenerate unplugged (page_with_topic (lit "Local elections"))
    = (Normal tt, p')
    /\ Dashboard.error (Dashboard.ui p') = lit "Failed to fetch".
Proof.
  destruct (failed_request_is_reported unplugged
              (page_with_topic (lit "Local elections"))
              (JsError (lit "Failed to fetch")))
    as [p' [Hrun [_ Herror]]].
  - reflexivity.
  - left. reflexivity.
  - exists p'. split; [exact Hrun | exact Herror].
Defined.

(* ------------------------------------------------------------------ *)
(** ** The dashboard page: the pipeline panel *)

(** X15.  In the pipeline panel, for two steps of which the first comes
    earlier: if the later one is complete so is the earlier one; if the
    later one is active the earlier one is complete and the later one is
    not; if the earlier one is active the later one is neither complete
    nor active; no step is complete and active at once; and every step,
    the first and the last included, is gray while idle and green when
    done, with the check mark when done and its own icon while idle. *)
Theorem pipeline_display_consistent (agentStep s1 s2 : Dashboard.AgentStep) :
  In s1 Dashboard.steps ->
  In s2 Dashboard.steps ->
  (Dashboard.indexOf s1 Dashboard.steps < Dashboard.indexOf s2 Dashboard.steps)%Z ->
  (Dashboard.isComplete agentStep s2 = true ->
   Dashboard.isComplete agentStep s1 = true)
  /\ (Dashboard.isActive agentStep s2 = true ->
      Dashboard.isComplete agentStep s1 = true
      /\ Dashboard.isComplete agentStep s2 = false)
  /\ (Dashboard.isActive agentStep s1 = true ->
      Dashboard.isComplete agentStep s2 = false
      /\ Dashboard.isActive agentStep s2 = false)
  /\ Dashboard.isComplete agentStep s1 && Dashboard.isActive agentStep s1 = false
  /\ Dashboard.isComplete agentStep s2 && Dashboard.isActive agentStep s2 = false
  /\ Dashboard.badge_colour Dashboard.Idle s1 = Dashboard.Gray
  /\ Dashboard.badge_colour Dashboard.Done s1 = Dashboard.Green
  /\ Dashboard.badge_colour Dashboard.Idle s2 = Dashboard.Gray
  /\ Dashboard.badge_colour Dashboard.Done s2 = Dashboard.Green
  /\ (forall s loading,
        In s Dashboard.steps ->
        Dashboard.badge_colour Dashboard.Idle s = Dashboard.Gray
        /\ Dashboard.badge_colour Dashboard.Done s = Dashboard.Green
        /\ Dashboard.badge_icon loading Dashboard.Idle s = Dashboard.StepIcon
        /\ Dashboard.badge_icon loading Dashboard.Done s = Dashboard.CheckMark
        /\ Dashboard.badge_colour s s = Dashboard.Blue
        /\ Dashboard.badge_icon true s s = Dashboard.Spinner).
Proof.
  intros H1 H2 Hlt.
  assert (Hall : forall s loading,
             In s Dashboard.steps ->
             Dashboard.badge_colour Dashboard.Idle s = Dashboard.Gray
             /\ Dashboard.badge_colour Dashboard.Done s = Dashboard.Green
             /\ Dashboard.badge_icon loading Dashboard.Idle s = Dashboard.StepIcon
             /\ Dashboard.badge_icon loading Dashboard.Done s = Dashboard.CheckMark
             /\ Dashboard.badge_colour s s = Dashboard.Blue
             /\ Dashboard.badge_icon true s s = Dashboard.Spinner).
  { intros s loading Hs.
    destruct Hs as [<- | [<- | [<- | []]]]; destruct loading;
      repeat split; reflexivity. }
  destruct (Hall s1 true H1) as [Hi1 [Hd1 _]].
  destruct (Hall s2 true H2) as [Hi2 [Hd2 _]].
  split; [|split; [|split; [|split; [|split]]]].
  6:{ repeat (split; [assumption|]). exact Hall. }
  all: clear Hall Hi1 Hd1 Hi2 Hd2; revert H1 H2 Hlt;
    destruct agentStep, s1, s2; cbv; intuition congruence.
Qed.

Lemma pipeline_display_consistent_witness :
  Dashboard.isComplete Dashboard.Editing Dashboard.Searching = true
  /\ Dashboard.isComplete Dashboard.Editing Dashboard.Editing = false.
Proof.
  apply (pipeline_display_consistent Dashboard.Editing Dashboard.Searching
           Dashboard.Editing).
  - left. reflexivity.
  - right. right. left. reflexivity.
  - reflexivity.
  - reflexivity.
Defined.

(* ------------------------------------------------------------------ *)
(** ** The dashboard page against the route *)

Lemma payload_valid_or_unconfigured (P : platform) (topic : jsstring) :
  truthy (trim topic) = true ->
  valid_request P {| request_json := Normal (Dashboard.payload topic) |} (trim topic)
  \/ ~ configured P.
Proof.
  intros H.
  destruct (OPENAI_API_KEY (env P)) as [[|k ks]|] eqn:K.
  - right. intros [key [Hk Hne]]. congruence.
  - left. split; [|split].
    + exists [(lit "topic", JStr (trim topic))]. split; reflexivity.
    + rewrite trim_idempotent. now apply truthy_nonempty.
    + exists (k :: ks). split; [exact K | discriminate].
  - right. intros [key [Hk Hne]]. congruence.
Qed.

(** What the route answers to the body the page sends. *)
Lemma served_shapes (P : platform) (w : world) (topic : jsstring) :
  truthy (trim topic) = true ->
  (exists a,
      truthy a = true
      /\ served P w (Dashboard.payload topic)
         = Normal {| Dashboard.ok := true;
                     Dashboard.status := 200%Z;
                     Dashboard.json_body :=
                       Normal (JObj [(lit "article", JStr a)]) |})
  \/ (exists m,
        served P w (Dashboard.payload topic)
        = Normal {| Dashboard.ok := false;
                    Dashboard.status := 500%Z;
                    Dashboard.json_body :=
                      Normal (JObj [(lit "error", JStr m)]) |}).
Proof.
  intros H. unfold served.
  destruct (payload_valid_or_unconfigured P topic H) as [Hvalid | Hkey].
  - rewrite (POST_valid P _ (trim topic) w Hvalid).
    destruct (run_agents_calls P (trim topic) w)
      as [r [rest [Hrun [_ [_ [[a [-> Ha]] | [m ->]]]]]]]; rewrite Hrun.
    + left. exists a. split; [exact Ha | reflexivity].
    + right. exists m. reflexivity.
  - right. exists (lit "OpenAI API key is not configured.").
    rewrite (POST_unconfigured P
               {| request_json := Normal (Dashboard.payload topic) |} w
               [(lit "topic", JStr (trim topic))] (trim topic) eq_refl eq_refl).
    + reflexivity.
    + rewrite trim_idempotent. now apply truthy_nonempty.
    + exact Hkey.
Qed.

(** X16.  The body the page sends for a topic that is not blank always
    passes the topic validation of the route: the answer has status 200 or
    500, never the 400 of a rejected topic. *)
Theorem page_request_passes_validation (P : platform) (w : world) (topic : jsstring) :
  truthy (trim topic) = true ->
  exists r,
    served P w (Dashboard.payload topic) = Normal r
    /\ (Dashboard.status r = 200%Z \/ Dashboard.status r = 500%Z).
Proof.
  intros H. destruct (served_shapes P w topic H) as [[a [_ Hr]] | [m Hr]];
    rewrite Hr; eexists; split; try reflexivity.
  - left. reflexivity.
  - right. reflexivity.
Qed.

Lemma page_request_passes_validation_witness :
  exists r,
    served (offline [] (Normal None)) [] (Dashboard.payload (lit " Local elections "))
    = Normal r
    /\ (Dashboard.status r = 200%Z \/ Dashboard.status r = 500%Z).
Proof.
  apply (page_request_passes_validation (offline [] (Normal None)) []
           (lit " Local elections ")).
  reflexivity.
Defined.

(** X17.  A run of the page against the route, for a topic that is not
    blank and whatever the collaborators of the route do, ends in one of
    two states: done with a non-empty article and no error, or idle with
    no article and a non-empty error message. *)
Theorem page_against_route (B : Dashboard.browser) (P : platform) (w : world)
    (p : Dashboard.page) :
  truthy (trim (Dashboard.topic (Dashboard.ui p))) = true ->
  exists p',
    Dashboard.handleGenerate (connected B P w) p = (Normal tt, p')
    /\ Dashboard.loading (Dashboard.ui p') = false
    /\ ((exists a,
            Dashboard.article (Dashboard.ui p') = Some (JStr a)
            /\ truthy a = true
            /\ Dashboard.error (Dashboard.ui p') = []
            /\ Dashboard.agentStep (Dashboard.ui p') = Dashboard.Done)
        \/ (Dashboard.article (Dashboard.ui p') = Some (JStr [])
            /\ truthy (Dashboard.error (Dashboard.ui p')) = true
            /\ Dashboard.agentStep (Dashboard.ui p') = Dashboard.Idle)).
Proof.
  intros H. eexists.
  split; [exact (handleGenerate_run (connected B P w) p H)|].
  cbn [Dashboard.ui]. unfold Dashboard.settled.
  change (Dashboard.fetch (connected B P w)) with (served P w).
  destruct (served_shapes P w (Dashboard.topic (Dashboard.ui p)) H)
    as [[a [Ha Hr]] | [m Hr]]; rewrite Hr.
  - split; [reflexivity|]. left. exists a. repeat split. exact Ha.
  - split; [reflexivity|]. right. split; [reflexivity|]. split; [|reflexivity].
    cbn [Dashboard.ok Dashboard.error Dashboard.failed].
    unfold Dashboard.failure_message. cbn [Dashboard.json_body].
    change (Dashboard.optional_error (JObj [(lit "error", JStr m)]))
      with (Some (JStr m)).
    destruct m; reflexivity.
Qed.

Lemma page_against_route_witness :
  exists p',
    Dashboard.handleGenerate
      (connected unplugged (online [Normal None; Normal (Some [])] (Normal None)) [])
      (page_with_topic (lit "Local elections")) = (Normal tt, p')
    /\ Dashboard.loading (Dashboard.ui p') = false.
Proof.
  destruct (page_against_route unplugged
              (online [Normal None; Normal (Some [])] (Normal None))
              [] (page_with_topic (lit "Local elections")))
    as [p' [Hrun [Hloading _]]].
  - reflexivity.
  - exists p'. split; [exact Hrun | exact Hloading].
Defined.
